(** * tinkoff_service.py: a command-line wrapper around the Tinkoff Invest SDK

    Shallow embedding of [src/python/tinkoff_service.py] and the properties
    of its request/response contract.

    - Python [int] is [Z]; Python [float] is IEEE 754 binary64, taken from
      the Standard Library's [SpecFloat] at precision 53 and [emax] 1024.
    - A response is the JSON value handed to [json.dumps]; a Python [dict]
      is an association list in insertion order.
    - The remote service is an arbitrary state machine over a world [W];
      every call may return a value or raise.  The operations run in a small
      state-and-exception monad that threads the world and a log of the
      connection events and remote calls. *)

From Stdlib Require Import ZArith String Ascii List Bool Lia.
From Stdlib Require Import Floats.SpecFloat.
Import ListNotations.

#[local] Open Scope string_scope.
#[local] Open Scope Z_scope.

(** ** Python floats *)

Module PyFloat.

Definition float : Type := spec_float.

Definition prec : Z := 53.
Definition emax : Z := 1024.

Definition zero : float := S754_zero false.

Definition add : float -> float -> float := SFadd prec emax.
Definition mul : float -> float -> float := SFmul prec emax.
Definition div : float -> float -> float := SFdiv prec emax.

(** Round-to-nearest-even conversion of an integer. *)
Definition of_Z (z : Z) : float := binary_normalize prec emax z 0 false.

(** The literal [1e9]. *)
Definition f1e9 : float := of_Z 1000000000.

Definition is_finite (f : float) : bool :=
  match f with
  | S754_zero _ | S754_finite _ _ _ => true
  | S754_infinity _ | S754_nan => false
  end.

(** Python's truth value of a float: [x != 0.0], true for NaN. *)
Definition truthy (f : float) : bool :=
  match f with
  | S754_zero _ => false
  | _ => true
  end.

(** The sign bit of a float that has one. *)
Definition has_sign (sx : bool) (f : float) : Prop :=
  match f with
  | S754_zero s | S754_finite s _ _ | S754_infinity s => s = sx
  | S754_nan => True
  end.

(** The protobuf [int64] range of the SDK's integer fields. *)
Definition int64 (z : Z) : Prop := - 2 ^ 63 <= z < 2 ^ 63.

End PyFloat.

Export PyFloat.

(** ** JSON values, Python dictionaries and exceptions *)

#[local] Set Warnings "-register-all".

(** The values [json.loads] produces and [json.dumps] consumes.  [JInt] and
    [JFloat] are kept apart: [json.dumps] prints [0] and [0.0] differently. *)
Inductive json : Type :=
| JNull
| JBool (b : bool)
| JInt (z : Z)
| JFloat (f : float)
| JStr (s : string)
| JList (l : list json)
| JDict (d : list (string * json)).

(** [d[key]] on the association list of a dictionary. *)
Fixpoint dict_get (d : list (string * json)) (key : string) : option json :=
  match d with
  | [] => None
  | (k, v) :: d' => if String.eqb k key then Some v else dict_get d' key
  end.

(** Field access on a response. *)
Definition field (j : json) (key : string) : option json :=
  match j with
  | JDict d => dict_get d key
  | _ => None
  end.

Definition has_key (j : json) (key : string) : bool :=
  match field j key with
  | Some _ => true
  | None => false
  end.

(** [type(x).__name__] *)
Definition type_name (j : json) : string :=
  match j with
  | JNull => "NoneType"
  | JBool _ => "bool"
  | JInt _ => "int"
  | JFloat _ => "float"
  | JStr _ => "str"
  | JList _ => "list"
  | JDict _ => "dict"
  end.

(** [bool(x)] *)
Definition py_bool (j : json) : bool :=
  match j with
  | JNull => false
  | JBool b => b
  | JInt z => negb (z =? 0)
  | JFloat f => truthy f
  | JStr s => negb (String.eqb s "")
  | JList l => match l with [] => false | _ => true end
  | JDict d => match d with [] => false | _ => true end
  end.


(** A raised exception: its class and its [str()].  Only subclasses of
    [Exception] are modelled, which is what [except Exception] catches. *)
Inductive exn : Type :=
| PyExc (cls : string) (msg : string).

Definition str (e : exn) : string :=
  match e with
  | PyExc _ msg => msg
  end.

Inductive result (A : Type) : Type :=
| Ok (a : A)
| Raise (e : exn).

Arguments Ok {A} a.
Arguments Raise {A} e.

Definition raised {A : Type} (r : result A) : option exn :=
  match r with
  | Ok _ => None
  | Raise e => Some e
  end.

Definition AttributeError (obj attr : string) : exn :=
  PyExc "AttributeError"
    (String.append "'" (String.append obj
      (String.append "' object has no attribute '" (String.append attr "'")))).


Definition OverflowError : exn :=
  PyExc "OverflowError" "int too large to convert to float".

(** [float(z)] on a Python [int]: the nearest double, or [OverflowError]. *)
Definition py_float (z : Z) : result float :=
  if is_finite (of_Z z) then Ok (of_Z z) else Raise OverflowError.

(** [data.get(key, default)]; an object that is not a dictionary has no
    [get] attribute. *)
Definition py_get (data : json) (key : string) (default : json) : result json :=
  match data with
  | JDict d =>
      Ok (match dict_get d key with
          | Some v => v
          | None => default
          end)
  | _ => Raise (AttributeError (type_name data) "get")
  end.

(** ** State-and-exception monad *)

Module Exc.

Definition M (S A : Type) : Type := S -> result A * S.

Definition ret {S A : Type} (a : A) : M S A := fun s => (Ok a, s).

Definition bind {S A B : Type} (m : M S A) (k : A -> M S B) : M S B :=
  fun s =>
    match m s with
    | (Ok a, s') => k a s'
    | (Raise e, s') => (Raise e, s')
    end.

Definition lift {S A : Type} (r : result A) : M S A := fun s => (r, s).

(** [try: m  except Exception as e: handler e] *)
Definition try_except {S A : Type} (m : M S A) (handler : exn -> M S A) : M S A :=
  fun s =>
    match m s with
    | (Ok a, s') => (Ok a, s')
    | (Raise e, s') => handler e s'
    end.

(** [try: m  finally: fin], with a [fin] that does not raise. *)
Definition finally {S A : Type} (m : M S A) (fin : S -> S) : M S A :=
  fun s => let (r, s') := m s in (r, fin s').

End Exc.

Import Exc.

Declare Scope py_scope.
Delimit Scope py_scope with py.
Notation "x <- m ;; k" := (bind m (fun x => k))
  (at level 61, m at next level, right associativity) : py_scope.
Notation "' pat <- m ;; k" := (bind m (fun x => match x with pat => k end))
  (at level 61, pat pattern, m at next level, right associativity) : py_scope.
#[local] Open Scope py_scope.

(** ** The SDK's data: the fields the program reads *)

Module SDK.

(** [tinkoff.invest.constants]: the two gRPC endpoints. *)
Inductive target : Type :=
| INVEST_GRPC_API
| INVEST_GRPC_API_SANDBOX.

(** [type] and [status] hold the [str()] of the SDK's enum member,
    [opened_date] the [isoformat()] of the timestamp when there is one. *)
Record Account : Type := {
  id : string;
  type : string;
  acc_name : string;
  status : string;
  opened_date : option string
}.

Record GetAccountsResponse : Type := {
  accounts : list Account
}.

Record PositionsSecurities : Type := {
  figi : string;
  balance : Z
}.

Record PositionsResponse : Type := {
  securities : list PositionsSecurities
}.

(** A share, a bond or an ETF: [ticker] and [name] are all that is read. *)
Record Instrument : Type := {
  ticker : string;
  name : string
}.

(** [ShareResponse], [BondResponse], [EtfResponse]. *)
Record InstrumentResponse : Type := {
  instrument : option Instrument
}.

Record Quotation : Type := {
  units : Z;
  nano : Z
}.

Record LastPrice : Type := {
  price : option Quotation
}.

Record GetLastPricesResponse : Type := {
  last_prices : list LastPrice
}.

(** [instrument_type] and [currency] hold their [str()]. *)
Record InstrumentShort : Type := {
  short_figi : string;
  short_ticker : string;
  short_name : string;
  instrument_type : string;
  currency : string
}.

Record FindInstrumentResponse : Type := {
  instruments : list InstrumentShort
}.

Record OpenSandboxAccountResponse : Type := {
  account_id : string
}.

Record MoneyValue : Type := {
  mv_currency : string;
  mv_units : Z;
  mv_nano : Z
}.

Record SandboxPayInResponse : Type := {
  pay_in_balance : MoneyValue
}.

(** The remote procedures the program calls, with their arguments. *)
Inductive call : Type :=
| users_get_accounts
| operations_get_positions (account_id : string)
| instruments_share_by (id : string)
| instruments_bond_by (id : string)
| instruments_etf_by (id : string)
| market_data_get_last_prices (figi : list json)
| instruments_find_instrument (query : json)
| sandbox_open_sandbox_account
| sandbox_sandbox_pay_in (account_id : string) (amount : json).

(** What the log records: entering and leaving [with Client(...)], and
    each remote call with the exception it raised, if any. *)
Inductive event : Type :=
| Connect (token : json) (tgt : target) (exc : option exn)
| Rpc (c : call) (exc : option exn)
| Close.

(** The remote service: each procedure answers from the current world and
    moves it.  A lookup may answer [None] (a null response). *)
Record Service (W : Type) : Type := {
  client : json -> target -> W -> result unit * W;
  get_accounts_rpc : W -> result GetAccountsResponse * W;
  get_positions_rpc : string -> W -> result PositionsResponse * W;
  share_by_rpc : string -> W -> result (option InstrumentResponse) * W;
  bond_by_rpc : string -> W -> result (option InstrumentResponse) * W;
  etf_by_rpc : string -> W -> result (option InstrumentResponse) * W;
  get_last_prices_rpc : list json -> W -> result (option GetLastPricesResponse) * W;
  find_instrument_rpc : json -> W -> result FindInstrumentResponse * W;
  open_sandbox_account_rpc : W -> result OpenSandboxAccountResponse * W;
  sandbox_pay_in_rpc : string -> json -> W -> result SandboxPayInResponse * W
}.

Arguments client {W} _ _ _ _.
Arguments get_accounts_rpc {W} _ _.
Arguments get_positions_rpc {W} _ _ _.
Arguments share_by_rpc {W} _ _ _.
Arguments bond_by_rpc {W} _ _ _.
Arguments etf_by_rpc {W} _ _ _.
Arguments get_last_prices_rpc {W} _ _ _.
Arguments find_instrument_rpc {W} _ _ _.
Arguments open_sandbox_account_rpc {W} _ _.
Arguments sandbox_pay_in_rpc {W} _ _ _ _.

(** The remote calls of a log, in order. *)
Fixpoint rpcs (l : list event) : list call :=
  match l with
  | [] => []
  | Rpc c _ :: l' => c :: rpcs l'
  | _ :: l' => rpcs l'
  end.

End SDK.

Import SDK.

(** ** The program *)

Section Program.

Variable W : Type.
Variable svc : Service W.

(** The world of the remote service and the log of what was done to it. *)
Record state : Type := {
  world : W;
  log : list event
}.

Definition Py (A : Type) : Type := M state A.

(** One remote call: the service answers, the log grows by one entry. *)
Definition remote {A : Type} (c : call) (f : W -> result A * W) : Py A :=
  fun s =>
    let (r, w') := f (world s) in
    (r, {| world := w'; log := log s ++ [Rpc c (raised r)] |}).

(** [with Client(token, target=target) as client: body].  The channel is
    closed on every way out of [body]. *)
Definition with_Client {A : Type} (token : json) (tgt : target) (body : Py A) : Py A :=
  _ <- (fun s =>
          let (r, w') := client svc token tgt (world s) in
          (r, {| world := w'; log := log s ++ [Connect token tgt (raised r)] |})) ;;
  finally body (fun s => {| world := world s; log := log s ++ [Close] |}).

Definition grpc_target (use_sandbox : bool) : target :=
  if use_sandbox then INVEST_GRPC_API_SANDBOX else INVEST_GRPC_API.

(** Lines 24-29. *)
Definition _money_value_to_float (money_value : option Quotation) : result float :=
  match money_value with
  | None => Ok zero
  | Some q =>
      match py_float (units q) with
      | Raise e => Raise e
      | Ok u =>
          match py_float (nano q) with
          | Raise e => Raise e
          | Ok n => Ok (add u (div n f1e9))
          end
      end
  end.

(** The local variables of the classification, lines 63-66. *)
Record locals : Type := {
  instrument_info : option Instrument;
  l_instrument_type : string;
  l_ticker : string;
  l_name : string
}.

(** [if r and r.instrument:] and the four assignments under it. *)
Definition adopt (r : option InstrumentResponse) (kind : string) (l : locals) : locals :=
  match r with
  | Some {| instrument := Some i |} =>
      {| instrument_info := Some i;
         l_instrument_type := kind;
         l_ticker := ticker i;
         l_name := name i |}
  | _ => l
  end.

(** Lines 63-110: stock, then bond, then ETF. *)
Definition classify (position : PositionsSecurities) : Py locals :=
  let l0 := {| instrument_info := None;
               l_instrument_type := "OTHER";
               l_ticker := figi position;
               l_name := "Unknown" |} in
  l1 <- try_except
          (share <- remote (instruments_share_by (figi position))
                           (share_by_rpc svc (figi position)) ;;
           ret (adopt share "STOCK" l0))
          (fun _ => ret l0) ;;
  l2 <- match instrument_info l1 with
        | Some _ => ret l1
        | None =>
            try_except
              (bond <- remote (instruments_bond_by (figi position))
                              (bond_by_rpc svc (figi position)) ;;
               ret (adopt bond "BOND" l1))
              (fun _ => ret l1)
        end ;;
  match instrument_info l2 with
  | Some _ => ret l2
  | None =>
      try_except
        (etf <- remote (instruments_etf_by (figi position))
                       (etf_by_rpc svc (figi position)) ;;
         ret (adopt etf "ETF" l2))
        (fun _ => ret l2)
  end.

(** Lines 115-121. *)
Definition fetch_current_price (position : PositionsSecurities) : Py float :=
  try_except
    (last_prices <- remote (market_data_get_last_prices [JStr (figi position)])
                           (get_last_prices_rpc svc [JStr (figi position)]) ;;
     match last_prices with
     | Some {| last_prices := p :: _ |} => lift (_money_value_to_float (price p))
     | _ => ret zero
     end)
    (fun _ => ret zero).

(** Lines 63-142, the body of the loop for a position that is kept: the
    dictionary appended to [portfolio_items] and the value added to
    [total_value]. *)
Definition portfolio_item (position : PositionsSecurities) : Py (json * float) :=
  l <- classify position ;;
  quantity <- lift (py_float (balance position)) ;;
  current_price <- fetch_current_price position ;;
  let average_price := zero in
  let total_item_value := mul quantity current_price in
  ret (JDict [("figi", JStr (figi position));
              ("ticker", JStr (l_ticker l));
              ("name", JStr (l_name l));
              ("type", JStr (l_instrument_type l));
              ("quantity", JFloat quantity);
              ("average_price", JFloat average_price);
              ("current_price", JFloat current_price);
              ("total_cost", JFloat zero);
              ("current_value", JFloat total_item_value);
              ("pnl", JFloat zero);
              ("pnl_percent", JFloat zero)],
       total_item_value).

(** Lines 59-142: the loop, with its two accumulators. *)
Fixpoint for_positions (positions : list PositionsSecurities)
    (portfolio_items : list json) (total_value : float) : Py (list json * float) :=
  match positions with
  | [] => ret (portfolio_items, total_value)
  | position :: rest =>
      if balance position <=? 0 then
        for_positions rest portfolio_items total_value
      else
        '(item, total_item_value) <- portfolio_item position ;;
        for_positions rest (portfolio_items ++ [item]) (add total_value total_item_value)
  end.

(** Lines 32-154. *)
Definition get_portfolio (token : json) (use_sandbox : bool) : Py json :=
  try_except
    (with_Client token (grpc_target use_sandbox)
       (accounts_response <- remote users_get_accounts (get_accounts_rpc svc) ;;
        match accounts accounts_response with
        | [] =>
            ret (JDict [("success", JBool true);
                        ("accounts", JList []);
                        ("portfolio", JList []);
                        ("total_value", JInt 0);
                        ("total_cost", JInt 0);
                        ("total_pnl", JInt 0);
                        ("total_pnl_percent", JInt 0)])
        | first :: _ =>
            let account_id := id first in
            positions_response <- remote (operations_get_positions account_id)
                                         (get_positions_rpc svc account_id) ;;
            let portfolio_items := [] in
            let total_value := zero in
            let total_cost := zero in
            '(portfolio_items, total_value) <-
               match securities positions_response with
               | [] => ret (portfolio_items, total_value)
               | _ :: _ =>
                   for_positions (securities positions_response)
                     portfolio_items total_value
               end ;;
            ret (JDict [("success", JBool true);
                        ("account_id", JStr account_id);
                        ("portfolio", JList portfolio_items);
                        ("total_value", JFloat total_value);
                        ("total_cost", JFloat total_cost);
                        ("total_pnl", JFloat zero);
                        ("total_pnl_percent", JFloat zero)])
        end))
    (fun e => ret (JDict [("success", JBool false); ("error", JStr (str e))])).

Definition account_json (acc : Account) : json :=
  JDict [("id", JStr (id acc));
         ("type", JStr (type acc));
         ("name", JStr (acc_name acc));
         ("status", JStr (status acc));
         ("opened_date", match opened_date acc with
                         | Some d => JStr d
                         | None => JNull
                         end)].

(** Lines 157-175. *)
Definition get_accounts (token : json) (use_sandbox : bool) : Py json :=
  try_except
    (with_Client token (grpc_target use_sandbox)
       (accounts_response <- remote users_get_accounts (get_accounts_rpc svc) ;;
        ret (JDict [("success", JBool true);
                    ("accounts", JList (map account_json (accounts accounts_response)))])))
    (fun e => ret (JDict [("success", JBool false);
                          ("accounts", JList []);
                          ("error", JStr (str e))])).

Definition instrument_json (i : InstrumentShort) : json :=
  JDict [("figi", JStr (short_figi i));
         ("ticker", JStr (short_ticker i));
         ("name", JStr (short_name i));
         ("type", JStr (instrument_type i));
         ("currency", JStr (currency i))].

(** Lines 178-196. *)
Definition search_instruments (token : json) (query : json) (use_sandbox : bool) : Py json :=
  try_except
    (with_Client token (grpc_target use_sandbox)
       (resp <- remote (instruments_find_instrument query) (find_instrument_rpc svc query) ;;
        ret (JDict [("success", JBool true);
                    ("instruments", JList (map instrument_json (instruments resp)))])))
    (fun e => ret (JDict [("success", JBool false);
                          ("instruments", JList []);
                          ("error", JStr (str e))])).

(** The amount paid in, line 208. *)
Definition pay_in_amount : json :=
  JDict [("currency", JStr "rub"); ("units", JInt 1000000); ("nano", JInt 0)].

(** Lines 199-212. *)
Definition create_demo_account (token : json) : Py json :=
  try_except
    (with_Client token INVEST_GRPC_API_SANDBOX
       (acc <- remote sandbox_open_sandbox_account (open_sandbox_account_rpc svc) ;;
        let account_id := account_id acc in
        balance <- remote (sandbox_sandbox_pay_in account_id pay_in_amount)
                          (sandbox_pay_in_rpc svc account_id pay_in_amount) ;;
        ret (JDict [("success", JBool true);
                    ("account_id", JStr account_id);
                    ("balance",
                     JDict [("units", JInt (mv_units (pay_in_balance balance)));
                            ("nano", JInt (mv_nano (pay_in_balance balance)));
                            ("currency", JStr (mv_currency (pay_in_balance balance)))])])))
    (fun e => ret (JDict [("success", JBool false); ("error", JStr (str e))])).

(** Lines 215-226.  A null response has no [last_prices] attribute. *)
Definition get_current_price (token : json) (figi : json) (use_sandbox : bool) : Py json :=
  try_except
    (with_Client token (grpc_target use_sandbox)
       (last_prices <- remote (market_data_get_last_prices [figi])
                              (get_last_prices_rpc svc [figi]) ;;
        match last_prices with
        | None => lift (Raise (AttributeError "NoneType" "last_prices"))
        | Some {| last_prices := [] |} =>
            ret (JDict [("success", JBool false); ("error", JStr "No price data")])
        | Some {| last_prices := p :: _ |} =>
            price <- lift (_money_value_to_float (price p)) ;;
            ret (JDict [("success", JBool true);
                        ("price", JFloat price);
                        ("currency", JStr "RUB")])
        end))
    (fun e => ret (JDict [("success", JBool false); ("error", JStr (str e))])).

(** [json.loads], a function of the Python library: what it makes of each
    input is a parameter of the model. *)
Variable json_loads : string -> result json.

(** Lines 229-255.  [stdin] is what [sys.stdin.read()] does at line 235:
    it returns the text of standard input, or raises when the bytes do not
    decode ([UnicodeDecodeError]); the read is outside every [try].
    [Ok j]: the document [j] was printed and [main] returned; [Raise e]:
    [e] left [main] uncaught. *)
Definition main (argv : list string) (stdin : result string) : Py json :=
  match argv with
  | [] | [_] => ret (JDict [("success", JBool false); ("error", JStr "Command is required")])
  | _ :: command :: _ =>
      raw <- lift stdin ;;
      let data :=
        if String.eqb raw "" then JDict []
        else match json_loads raw with
             | Ok v => v
             | Raise _ => JDict []
             end in
      token <- lift (py_get data "token" JNull) ;;
      sandbox <- lift (py_get data "use_sandbox" (JBool false)) ;;
      let use_sandbox := py_bool sandbox in
      if String.eqb command "get_portfolio" then
        get_portfolio token use_sandbox
      else if String.eqb command "get_accounts" then
        get_accounts token use_sandbox
      else if String.eqb command "search_instruments" then
        query <- lift (py_get data "query" (JStr "")) ;;
        search_instruments token query use_sandbox
      else if String.eqb command "create_demo_account" then
        create_demo_account token
      else if String.eqb command "get_current_price" then
        figi <- lift (py_get data "figi" (JStr "")) ;;
        get_current_price token figi use_sandbox
      else
        ret (JDict [("success", JBool false);
                    ("error", JStr (String.append "Unknown command: " command))])
  end.

End Program.

Arguments world {W} s.
Arguments log {W} s.
Arguments Build_state {W} world log.

(** ** Vocabulary of the properties *)

(** The five operations [main] dispatches to, with their arguments. *)
Inductive operation : Type :=
| op_get_portfolio (token : json) (use_sandbox : bool)
| op_get_accounts (token : json) (use_sandbox : bool)
| op_search_instruments (token : json) (query : json) (use_sandbox : bool)
| op_create_demo_account (token : json)
| op_get_current_price (token : json) (figi : json) (use_sandbox : bool).

Definition run_operation {W : Type} (svc : Service W) (op : operation) : Py W json :=
  match op with
  | op_get_portfolio token use_sandbox => get_portfolio W svc token use_sandbox
  | op_get_accounts token use_sandbox => get_accounts W svc token use_sandbox
  | op_search_instruments token query use_sandbox =>
      search_instruments W svc token query use_sandbox
  | op_create_demo_account token => create_demo_account W svc token
  | op_get_current_price token figi use_sandbox =>
      get_current_price W svc token figi use_sandbox
  end.

(** The calls [get_portfolio] makes once per position, each under a
    [try]/[except] of its own (lines 69-80, 84-95, 99-110, 116-121). *)
Definition per_position (c : call) : bool :=
  match c with
  | instruments_share_by _ | instruments_bond_by _ | instruments_etf_by _
  | market_data_get_last_prices _ => true
  | _ => false
  end.

(** An exception the log records that no handler inside the operation can
    have caught: raised on connecting, or by a remote call other than the
    per-position calls of [get_portfolio]. *)
Definition reaches_boundary (op : operation) (ev : event) : option exn :=
  match ev with
  | Connect _ _ exc => exc
  | Rpc c exc =>
      match op with
      | op_get_portfolio _ _ => if per_position c then None else exc
      | _ => exc
      end
  | Close => None
  end.

(** Any exception the log records. *)
Definition event_exception (ev : event) : option exn :=
  match ev with
  | Connect _ _ exc => exc
  | Rpc _ exc => exc
  | Close => None
  end.

(** The instrument a lookup found; [None] when it raised or came back
    null. *)
Definition resolved (r : result (option InstrumentResponse)) : option Instrument :=
  match r with
  | Ok (Some {| instrument := Some i |}) => Some i
  | _ => None
  end.

Definition float_field (item : json) (key : string) : float :=
  match field item key with
  | Some (JFloat f) => f
  | _ => zero
  end.

(** [sum(item["current_value"] for item in portfolio)] *)
Definition sum_current_value (items : list json) : float :=
  fold_left (fun acc item => add acc (float_field item "current_value")) items zero.

Definition kept (positions : list PositionsSecurities) : list PositionsSecurities :=
  filter (fun p => 0 <? balance p) positions.

Definition supported_command (command : string) : bool :=
  String.eqb command "get_portfolio"
  || String.eqb command "get_accounts"
  || String.eqb command "search_instruments"
  || String.eqb command "create_demo_account"
  || String.eqb command "get_current_price".

(** The response a run ended with; [JNull] stands for an uncaught
    exception. *)
Definition response_of {W : Type} (run : result json * state W) : json :=
  match fst run with
  | Ok resp => resp
  | Raise _ => JNull
  end.

Definition is_dict (j : json) : bool :=
  match j with
  | JDict _ => true
  | _ => false
  end.

(** The response of line 255. *)
Definition unknown_command (command : string) : json :=
  JDict [("success", JBool false);
         ("error", JStr (String.append "Unknown command: " command))].

(** The response of lines 154, 212 and 226. *)
Definition failure (e : exn) : json :=
  JDict [("success", JBool false); ("error", JStr (str e))].

(** The state after the service moved to [w] and [evs] were logged. *)
Definition logged {W : Type} (s : state W) (w : W) (evs : list event) : state W :=
  {| world := w; log := log s ++ evs |}.

(** The classification adopted from a found instrument, and the one a
    position keeps when nothing was found. *)
Definition found_locals (i : Instrument) (kind : string) : locals :=
  {| instrument_info := Some i;
     l_instrument_type := kind;
     l_ticker := ticker i;
     l_name := name i |}.

Definition other_locals (p : PositionsSecurities) : locals :=
  {| instrument_info := None;
     l_instrument_type := "OTHER";
     l_ticker := figi p;
     l_name := "Unknown" |}.

(** The price lines 116-121 take from the answer to the last-price call:
    [0.0] when the call raised, came back null or empty, or the conversion
    raised. *)
Definition quoted_price (r : result (option GetLastPricesResponse)) : float :=
  match r with
  | Ok (Some {| last_prices := p :: _ |}) =>
      match _money_value_to_float (price p) with
      | Ok f => f
      | Raise _ => zero
      end
  | _ => zero
  end.

(** The dictionary of lines 129-141. *)
Definition item_json (p : PositionsSecurities) (l : locals)
    (quantity current_price : float) : json :=
  JDict [("figi", JStr (figi p));
         ("ticker", JStr (l_ticker l));
         ("name", JStr (l_name l));
         ("type", JStr (l_instrument_type l));
         ("quantity", JFloat quantity);
         ("average_price", JFloat zero);
         ("current_price", JFloat current_price);
         ("total_cost", JFloat zero);
         ("current_value", JFloat (mul quantity current_price));
         ("pnl", JFloat zero);
         ("pnl_percent", JFloat zero)].

(** A log entry of one of the per-position calls. *)
Definition per_position_event (ev : event) : Prop :=
  exists c exc, ev = Rpc c exc /\ per_position c = true.

(** [item] is what the loop body builds for [p] from some state, its
    [current_value] being what the body adds to the running total. *)
Definition produces {W : Type} (svc : Service W) (p : PositionsSecurities) (item : json) : Prop :=
  exists s0 s1,
    portfolio_item W svc p s0 = (Ok (item, float_field item "current_value"), s1).

(** The response of [get_portfolio] when there is no account (lines 40-48). *)
Definition no_accounts_response : json :=
  JDict [("success", JBool true);
         ("accounts", JList []);
         ("portfolio", JList []);
         ("total_value", JInt 0);
         ("total_cost", JInt 0);
         ("total_pnl", JInt 0);
         ("total_pnl_percent", JInt 0)].

(** The response of [get_portfolio] for an account (lines 144-152). *)
Definition portfolio_response (account_id : string) (items : list json)
    (total_value : float) : json :=
  JDict [("success", JBool true);
         ("account_id", JStr account_id);
         ("portfolio", JList items);
         ("total_value", JFloat total_value);
         ("total_cost", JFloat zero);
         ("total_pnl", JFloat zero);
         ("total_pnl_percent", JFloat zero)].

(** ** Scripted services for the concrete runs

    A scripted service answers each procedure from a fixed table and counts
    the calls it has served in its world. *)

Module Script.

Record script : Type := {
  on_client : result unit;
  on_get_accounts : result GetAccountsResponse;
  on_get_positions : string -> result PositionsResponse;
  on_share_by : string -> result (option InstrumentResponse);
  on_bond_by : string -> result (option InstrumentResponse);
  on_etf_by : string -> result (option InstrumentResponse);
  on_get_last_prices : list json -> result (option GetLastPricesResponse);
  on_find_instrument : json -> result FindInstrumentResponse;
  on_open_sandbox_account : result OpenSandboxAccountResponse;
  on_sandbox_pay_in : string -> json -> result SandboxPayInResponse
}.

Definition serve {A : Type} (r : A) (w : nat) : A * nat := (r, S w).

Definition service (sc : script) : Service nat :=
  {| client := fun _ _ => serve (on_client sc);
     get_accounts_rpc := serve (on_get_accounts sc);
     get_positions_rpc := fun a => serve (on_get_positions sc a);
     share_by_rpc := fun f => serve (on_share_by sc f);
     bond_by_rpc := fun f => serve (on_bond_by sc f);
     etf_by_rpc := fun f => serve (on_etf_by sc f);
     get_last_prices_rpc := fun fs => serve (on_get_last_prices sc fs);
     find_instrument_rpc := fun q => serve (on_find_instrument sc q);
     open_sandbox_account_rpc := serve (on_open_sandbox_account sc);
     sandbox_pay_in_rpc := fun a m => serve (on_sandbox_pay_in sc a m) |}.

Definition start : state nat := {| world := 0%nat; log := [] |}.

Definition outage : exn := PyExc "RequestError" "UNAVAILABLE".

Definition unavailable {A : Type} : result A := Raise outage.

Definition found (t n : string) : result (option InstrumentResponse) :=
  Ok (Some {| instrument := Some {| ticker := t; name := n |} |}).

Definition quote (u n : Z) : result (option GetLastPricesResponse) :=
  Ok (Some {| last_prices := [{| price := Some {| units := u; nano := n |} |}] |}).

Definition token : json := JStr "t.0123456789".

Definition sber : PositionsSecurities := {| figi := "BBG004730N88"; balance := 5 |}.
Definition ofz : PositionsSecurities := {| figi := "BBG00T22WKV5"; balance := 3 |}.
Definition tmos : PositionsSecurities := {| figi := "BBG333333333"; balance := 2 |}.
Definition unlisted : PositionsSecurities := {| figi := "BBG000000001"; balance := 1 |}.

Definition main_account : Account :=
  {| id := "2000123";
     type := "AccountType.ACCOUNT_TYPE_TINKOFF";
     acc_name := "Main";
     status := "AccountStatus.ACCOUNT_STATUS_OPEN";
     opened_date := Some "2021-03-04T00:00:00+00:00" |}.

Definition holdings : list PositionsSecurities :=
  [sber; {| figi := "BBG00000SOLD"; balance := 0 |}; ofz;
   {| figi := "BBG0000SHORT"; balance := -2 |}; tmos; unlisted].

(** One account holding a share, a bond, an ETF, an instrument no lookup
    knows, and two positions that are not held.  The share lookup raises
    for the bond, the price lookup raises for it too. *)
Definition broker : script :=
  {| on_client := Ok tt;
     on_get_accounts := Ok {| accounts := [main_account] |};
     on_get_positions := fun _ => Ok {| securities := holdings |};
     on_share_by := fun f =>
       if String.eqb f "BBG004730N88" then found "SBER" "Sberbank"
       else if String.eqb f "BBG333333333" then Ok None
       else Raise (PyExc "RequestError" "NOT_FOUND");
     on_bond_by := fun f =>
       if String.eqb f "BBG00T22WKV5" then found "SU29013RMFS8" "OFZ 29013"
       else if String.eqb f "BBG333333333" then Ok (Some {| instrument := None |})
       else Raise (PyExc "RequestError" "NOT_FOUND");
     on_etf_by := fun f =>
       if String.eqb f "BBG333333333" then found "TMOS" "Tinkoff iMOEX"
       else Raise (PyExc "RequestError" "NOT_FOUND");
     on_get_last_prices := fun fs =>
       match fs with
       | [JStr "BBG004730N88"] => quote 123 450000000
       | [JStr "BBG00T22WKV5"] => Raise (PyExc "RequestError" "UNAVAILABLE")
       | [JStr "BBG333333333"] => quote 6 0
       | _ => Ok (Some {| last_prices := [] |})
       end;
     on_find_instrument := fun _ => Ok {| instruments := [] |};
     on_open_sandbox_account := Ok {| account_id := "sandbox-1" |};
     on_sandbox_pay_in := fun _ _ =>
       Ok {| pay_in_balance :=
               {| mv_currency := "rub"; mv_units := 1000000; mv_nano := 0 |} |} |}.

(** A customer without accounts. *)
Definition no_accounts : script :=
  {| on_client := Ok tt;
     on_get_accounts := Ok {| accounts := [] |};
     on_get_positions := fun _ => unavailable;
     on_share_by := fun _ => unavailable;
     on_bond_by := fun _ => unavailable;
     on_etf_by := fun _ => unavailable;
     on_get_last_prices := fun _ => unavailable;
     on_find_instrument := fun _ => unavailable;
     on_open_sandbox_account := unavailable;
     on_sandbox_pay_in := fun _ _ => unavailable |}.

(** A service every call to which raises [e]; the channel itself opens. *)
Definition failing (e : exn) : script :=
  {| on_client := Ok tt;
     on_get_accounts := Raise e;
     on_get_positions := fun _ => Raise e;
     on_share_by := fun _ => Raise e;
     on_bond_by := fun _ => Raise e;
     on_etf_by := fun _ => Raise e;
     on_get_last_prices := fun _ => Raise e;
     on_find_instrument := fun _ => Raise e;
     on_open_sandbox_account := Raise e;
     on_sandbox_pay_in := fun _ _ => Raise e |}.

(** A [json.loads] that knows four documents and rejects the rest. *)
Definition loads (raw : string) : result json :=
  if String.eqb raw "{}" then Ok (JDict [])
  else if String.eqb raw "[]" then Ok (JList [])
  else if String.eqb raw "null" then Ok JNull
  else if String.eqb raw "42" then Ok (JInt 42)
  else Raise (PyExc "JSONDecodeError" "Expecting value: line 1 column 1 (char 0)").

End Script.

(** ** Vocabulary of the further properties *)

Definition is_rpc (ev : event) : bool :=
  match ev with
  | Rpc _ _ => true
  | _ => false
  end.

(** The token an operation was called with and the endpoint it connects
    to (lines 35, 159, 180, 203, 217). *)
Definition operation_token (op : operation) : json :=
  match op with
  | op_get_portfolio token _ | op_get_accounts token _
  | op_search_instruments token _ _ | op_create_demo_account token
  | op_get_current_price token _ _ => token
  end.

Definition operation_target (op : operation) : target :=
  match op with
  | op_get_portfolio _ use_sandbox | op_get_accounts _ use_sandbox
  | op_search_instruments _ _ use_sandbox
  | op_get_current_price _ _ use_sandbox => grpc_target use_sandbox
  | op_create_demo_account _ => INVEST_GRPC_API_SANDBOX
  end.

(** A computation that touches the state only by remote calls: whatever it
    returns, the log grew by [Rpc] entries and nothing else. *)
Definition rpc_only {W A : Type} (m : Py W A) : Prop :=
  forall s, exists r w calls,
    m s = (r, logged s w calls) /\ forallb is_rpc calls = true.

(** Every value the computation returns satisfies [P]. *)
Definition returns {W A : Type} (P : A -> Prop) (m : Py W A) : Prop :=
  forall s a s', m s = (Ok a, s') -> P a.

(** The shape of a response: a boolean [success], and an [error] exactly
    when it is false. *)
Definition tagged (resp : json) : Prop :=
  exists b, field resp "success" = Some (JBool b) /\ has_key resp "error" = negb b.

(** [d.get(key, default)] on a dictionary. *)
Definition get_or (d : list (string * json)) (key : string) (default : json) : json :=
  match dict_get d key with
  | Some v => v
  | None => default
  end.

(** The endpoint [main] selects for a command and a request (lines 242-253). *)
Definition command_target (command : string) (d : list (string * json)) : target :=
  if String.eqb command "create_demo_account" then INVEST_GRPC_API_SANDBOX
  else grpc_target (py_bool (get_or d "use_sandbox" (JBool false))).

(** The four values of an item's [type]. *)
Definition item_type (t : string) : Prop :=
  t = "STOCK" \/ t = "BOND" \/ t = "ETF" \/ t = "OTHER".

(** An answer to the last-price call that holds no price: null, an empty
    list, or a first entry without a price (lines 118-119, 25-26). *)
Definition no_price (r : option GetLastPricesResponse) : Prop :=
  r = None
  \/ r = Some {| last_prices := [] |}
  \/ exists rest, r = Some {| last_prices := {| price := None |} :: rest |}.

(** ** A request for the concrete runs *)

Module Requests.

(** The double quote. *)
Definition dq : string := String (ascii_of_nat 34) "".

Definition key (k : string) : string := String.append dq (String.append k dq).

(** A request whose sandbox flag is the string "false", whose query is a
    number and which has no figi. *)
Definition flagged_text : string :=
  String.concat ""
    ["{"; key "token"; ": "; key "t.0123456789"; ", ";
     key "use_sandbox"; ": "; key "false"; ", ";
     key "query"; ": 7}"].

Definition flagged : list (string * json) :=
  [("token", JStr "t.0123456789"); ("use_sandbox", JStr "false"); ("query", JInt 7)].

(** A [json.loads] that knows [flagged_text] besides the documents of
    [Script.loads]. *)
Definition loads (raw : string) : result json :=
  if String.eqb raw flagged_text then Ok (JDict flagged) else Script.loads raw.

(** An account whose positions are all sold or short. *)
Definition idle : Script.script :=
  {| Script.on_client := Ok tt;
     Script.on_get_accounts := Ok {| accounts := [Script.main_account] |};
     Script.on_get_positions := fun _ =>
       Ok {| securities := [{| figi := "BBG00000SOLD"; balance := 0 |};
                            {| figi := "BBG0000SHORT"; balance := -2 |}] |};
     Script.on_share_by := fun _ => Script.unavailable;
     Script.on_bond_by := fun _ => Script.unavailable;
     Script.on_etf_by := fun _ => Script.unavailable;
     Script.on_get_last_prices := fun _ => Ok (Some {| last_prices := [] |});
     Script.on_find_instrument := fun _ =>
       Ok {| instruments :=
               [{| short_figi := "BBG004730N88"; short_ticker := "SBER";
                   short_name := "Sberbank"; instrument_type := "share";
                   currency := "rub" |};
                {| short_figi := "BBG0047315Y7"; short_ticker := "SBERP";
                   short_name := "Sberbank pref"; instrument_type := "share";
                   currency := "rub" |}] |};
     Script.on_open_sandbox_account := Script.unavailable;
     Script.on_sandbox_pay_in := fun _ _ => Script.unavailable |}.


End Requests.

(** ** Proof automation *)

(** Unfolds the monad and the connection scope. *)
Ltac step_py :=
  unfold with_Client, try_except, bind, finally, remote, ret, lift, logged;
  cbn [world log fst snd].

(** Flattens the log of a finished run. *)
Ltac norm_log :=
  cbn [world log raised fst snd]; rewrite <- ?app_assoc; cbn [app].

(** Goes through the entries of a finished log, looking for the exception
    that reached the boundary. *)
Ltac boundary_cases :=
  let ev := fresh "ev" in
  let e := fresh "e" in
  let Hin := fresh "Hin" in
  let Hb := fresh "Hb" in
  intros ev e Hin Hb; cbn [In] in Hin;
  repeat (destruct Hin as [<-|Hin];
          [cbn in Hb;
           first [discriminate Hb | injection Hb as <-; split; reflexivity]|]);
  try contradiction.

(** * Properties *)

(** ** Integers of the [int64] range convert to finite floats *)

Section FloatFacts.

Lemma digits2_pos_size (p : positive) : digits2_pos p = Pos.size p.
Proof. induction p; simpl; congruence. Qed.

Lemma Zdigits2_le (x : Z) : 0 <= x <= 2 ^ 64 -> 0 <= Zdigits2 x <= 65.
Proof.
  intros [H0 H1]. destruct x as [|p|p]; simpl; try lia.
  rewrite digits2_pos_size.
  pose proof (Pos.size_le p) as Hs.
  apply Pos2Z.pos_le_pos in Hs. rewrite Pos2Z.inj_pow in Hs.
  split; [lia|].
  destruct (Z_le_gt_dec (Z.pos (Pos.size p)) 65) as [|Hgt]; [assumption|].
  assert (2 ^ 66 <= 2 ^ Z.pos (Pos.size p)) by (apply Z.pow_le_mono_r; lia).
  lia.
Qed.

Lemma shr_1_bounds (mrs : shr_record) :
  0 <= shr_m mrs -> 0 <= shr_m (shr_1 mrs) <= shr_m mrs.
Proof.
  destruct mrs as [m r s]; simpl. intros H.
  destruct m as [|[p|p|]|p]; simpl; lia.
Qed.

Lemma iter_shr_1_bounds (n : positive) : forall mrs,
  0 <= shr_m mrs -> 0 <= shr_m (iter_pos shr_1 n mrs) <= shr_m mrs.
Proof.
  induction n as [n IH|n IH|]; intros mrs H; simpl.
  - pose proof (shr_1_bounds mrs H) as H1.
    pose proof (IH _ (proj1 H1)) as H2.
    pose proof (IH _ (proj1 H2)) as H3. lia.
  - pose proof (IH _ H) as H2.
    pose proof (IH _ (proj1 H2)) as H3. lia.
  - apply shr_1_bounds; assumption.
Qed.

Lemma shr_fexp_bounds (m e : Z) (l : location) :
  0 <= m <= 2 ^ 64 -> -1074 <= e <= 12 ->
  0 <= shr_m (fst (shr_fexp prec emax m e l)) <= m /\
  -1074 <= snd (shr_fexp prec emax m e l) <= 24.
Proof.
  intros Hm He. unfold shr_fexp, shr.
  pose proof (Zdigits2_le m Hm) as Hd.
  assert (Hr : shr_m (shr_record_of_loc m l) = m) by (destruct l as [|[]]; reflexivity).
  destruct (fexp prec emax (Zdigits2 m + e) - e) as [|p|p] eqn:E; simpl;
    try (rewrite Hr; lia).
  split.
  - rewrite <- Hr at 3. apply iter_shr_1_bounds. rewrite Hr; lia.
  - unfold fexp, emin, prec, emax in E. lia.
Qed.

Lemma round_nearest_even_bounds (m : Z) (l : location) :
  0 <= m -> m <= round_nearest_even m l <= m + 1.
Proof.
  intros H. destruct l as [|[]]; simpl; try lia.
  destruct (Z.even m); lia.
Qed.

(** The sign of a rounded number is the sign that went in. *)
Lemma binary_round_aux_sign (sx : bool) (mx ex : Z) (l : location) :
  has_sign sx (binary_round_aux prec emax sx mx ex l).
Proof.
  unfold binary_round_aux.
  destruct (shr_fexp prec emax mx ex l) as [mrs' e'].
  destruct (shr_fexp prec emax _ e' loc_Exact) as [mrs'' e''].
  destruct (shr_m mrs''); [exact eq_refl | | exact I].
  destruct (e'' <=? emax - prec); exact eq_refl.
Qed.

Lemma binary_round_aux_finite (sx : bool) (mx ex : Z) :
  0 <= mx <= 2 ^ 63 -> -1074 <= ex <= 0 ->
  is_finite (binary_round_aux prec emax sx mx ex loc_Exact) = true.
Proof.
  intros Hm He. unfold binary_round_aux.
  assert (Hm' : 0 <= mx <= 2 ^ 64) by lia.
  assert (He' : -1074 <= ex <= 12) by lia.
  pose proof (shr_fexp_bounds mx ex loc_Exact Hm' He') as [H1 H2].
  destruct (shr_fexp prec emax mx ex loc_Exact) as [mrs' e'] eqn:E1.
  simpl in H1, H2.
  set (m1 := round_nearest_even (shr_m mrs') (loc_of_shr_record mrs')).
  pose proof (round_nearest_even_bounds (shr_m mrs') (loc_of_shr_record mrs')
                (proj1 H1)) as H3.
  fold m1 in H3.
  assert (Hm1 : 0 <= m1 <= 2 ^ 64) by lia.
  assert (He1 : -1074 <= e' <= 12).
  { revert E1. unfold shr_fexp, shr.
    pose proof (Zdigits2_le mx Hm') as Hd.
    destruct (fexp prec emax (Zdigits2 mx + ex) - ex) as [|p|p] eqn:E;
      intros [= <- <-]; try lia.
    unfold fexp, emin, prec, emax in E. lia. }
  pose proof (shr_fexp_bounds m1 e' loc_Exact Hm1 He1) as [H4 H5].
  destruct (shr_fexp prec emax m1 e' loc_Exact) as [mrs'' e''] eqn:E2.
  simpl in H4, H5.
  destruct (shr_m mrs'') as [|p|p]; try reflexivity; try lia.
  replace (e'' <=? emax - prec) with true; [reflexivity|].
  symmetry. apply Z.leb_le. unfold emax, prec. lia.
Qed.

Lemma iter_xO_spec (d m : positive) :
  Z.pos (Pos.iter xO m d) = Z.pos m * 2 ^ Z.pos d.
Proof.
  rewrite Z.mul_comm. change (2 ^ Z.pos d) with (Z.pow_pos 2 d).
  rewrite <- shift_pos_correct. reflexivity.
Qed.

Lemma shl_align_bounds (m : positive) :
  Z.pos m <= 2 ^ 63 ->
  let '(mz, ez) := shl_align m 0 (fexp prec emax (Z.pos (digits2_pos m) + 0)) in
  0 <= Z.pos mz <= 2 ^ 63 /\ -1074 <= ez <= 0.
Proof.
  intros Hm. unfold shl_align.
  destruct (fexp prec emax (Z.pos (digits2_pos m) + 0) - 0) as [|d|d] eqn:E;
    try (split; lia).
  rewrite iter_xO_spec. rewrite digits2_pos_size in E |- *.
  unfold fexp, emin, prec, emax in E |- *.
  pose proof (Pos.size_gt m) as Hs.
  apply Pos2Z.pos_lt_pos in Hs. rewrite Pos2Z.inj_pow in Hs.
  assert (Hd : Z.pos (Pos.size m) + Z.pos d = 53) by lia.
  assert (Hp : 2 ^ Z.pos (Pos.size m) * 2 ^ Z.pos d = 2 ^ 53).
  { rewrite <- Z.pow_add_r by lia. rewrite Hd. reflexivity. }
  split; [|lia].
  assert (0 < 2 ^ Z.pos d) by (apply Z.pow_pos_nonneg; lia).
  nia.
Qed.

Lemma binary_round_finite (sx : bool) (m : positive) :
  Z.pos m <= 2 ^ 63 -> is_finite (binary_round prec emax sx m 0) = true.
Proof.
  intros Hm. unfold binary_round.
  pose proof (shl_align_bounds m Hm) as H.
  destruct (shl_align m 0 (fexp prec emax (Z.pos (digits2_pos m) + 0))) as [mz ez].
  apply binary_round_aux_finite; tauto.
Qed.

Lemma of_Z_finite (z : Z) : int64 z -> is_finite (of_Z z) = true.
Proof.
  unfold int64. intros Hz. unfold of_Z, binary_normalize.
  destruct z as [|m|m]; [reflexivity| |]; apply binary_round_finite; lia.
Qed.

(** [float(z)] does not raise on an [int64]. *)
Lemma py_float_int64 (z : Z) : int64 z -> py_float z = Ok (of_Z z).
Proof.
  intros Hz. unfold py_float. rewrite (of_Z_finite z Hz). reflexivity.
Qed.

Lemma py_float_inv (z : Z) (q : float) :
  py_float z = Ok q -> q = of_Z z /\ is_finite q = true.
Proof.
  unfold py_float. destruct (is_finite (of_Z z)) eqn:E; [|discriminate].
  intros [= <-]. split; [reflexivity | assumption].
Qed.

Lemma of_Z_positive_sign (z : Z) : 0 < z -> has_sign false (of_Z z).
Proof.
  intros Hz. destruct z as [|m|m]; try lia.
  unfold of_Z, binary_normalize, binary_round.
  destruct (shl_align m 0 _) as [mz ez]. apply binary_round_aux_sign.
Qed.

(** A positive quantity times the price [0.0] is [0.0]. *)
Lemma mul_quantity_zero (z : Z) (q : float) :
  0 < z -> py_float z = Ok q -> mul q zero = zero.
Proof.
  intros Hz Hq. apply py_float_inv in Hq as [-> Hfin].
  pose proof (of_Z_positive_sign z Hz) as Hs.
  destruct (of_Z z) as [s|s| |s m e]; simpl in *; try discriminate;
    subst s; reflexivity.
Qed.

End FloatFacts.

(** ** How the operations run *)

Section Properties.

Variable W : Type.
Variable svc : Service W.
Variable json_loads : string -> result json.

Lemma adopt_resolved (r : option InstrumentResponse) (kind : string) (l : locals) :
  adopt r kind l =
  match resolved (Ok r) with
  | Some i => found_locals i kind
  | None => l
  end.
Proof. destruct r as [[[i|]]|]; reflexivity. Qed.

(** One guarded lookup (lines 69-80, 84-95, 99-110). *)
Lemma lookup_run (c : call) (f : W -> result (option InstrumentResponse) * W)
    (kind : string) (l : locals) (s : state W) :
  try_except (r <- remote W c f ;; ret (adopt r kind l)) (fun _ => ret l) s =
  (Ok (match resolved (fst (f (world s))) with
       | Some i => found_locals i kind
       | None => l
       end),
   logged s (snd (f (world s))) [Rpc c (raised (fst (f (world s))))]).
Proof.
  unfold try_except, bind, remote, ret, logged.
  destruct (f (world s)) as [[r|e] w']; simpl; [|reflexivity].
  rewrite adopt_resolved. reflexivity.
Qed.

Lemma classify_run (p : PositionsSecurities) (s : state W) :
  classify W svc p s =
  let r1 := share_by_rpc svc (figi p) (world s) in
  let e1 := Rpc (instruments_share_by (figi p)) (raised (fst r1)) in
  match resolved (fst r1) with
  | Some i => (Ok (found_locals i "STOCK"), logged s (snd r1) [e1])
  | None =>
      let r2 := bond_by_rpc svc (figi p) (snd r1) in
      let e2 := Rpc (instruments_bond_by (figi p)) (raised (fst r2)) in
      match resolved (fst r2) with
      | Some i => (Ok (found_locals i "BOND"), logged s (snd r2) [e1; e2])
      | None =>
          let r3 := etf_by_rpc svc (figi p) (snd r2) in
          let e3 := Rpc (instruments_etf_by (figi p)) (raised (fst r3)) in
          match resolved (fst r3) with
          | Some i => (Ok (found_locals i "ETF"), logged s (snd r3) [e1; e2; e3])
          | None => (Ok (other_locals p), logged s (snd r3) [e1; e2; e3])
          end
      end
  end.
Proof.
  unfold classify. unfold bind at 1. rewrite lookup_run. cbv zeta.
  destruct (resolved (fst (share_by_rpc svc (figi p) (world s)))) as [i|] eqn:E1.
  - reflexivity.
  - unfold bind at 1. cbn [instrument_info]. rewrite lookup_run. cbn [world logged].
    destruct (resolved (fst (bond_by_rpc svc (figi p) _))) as [i|] eqn:E2.
    + cbn [instrument_info found_locals]. unfold ret, logged. cbn [log].
      rewrite <- app_assoc. reflexivity.
    + cbn [instrument_info]. rewrite lookup_run. cbn [world logged log].
      unfold logged. cbn [log world]. rewrite <- !app_assoc.
      destruct (resolved (fst (etf_by_rpc svc (figi p) _))); reflexivity.
Qed.

(** The classification never raises and logs per-position calls only. *)
Lemma classify_total (p : PositionsSecurities) (s : state W) :
  exists l w evs,
    classify W svc p s = (Ok l, logged s w evs) /\ Forall per_position_event evs.
Proof.
  rewrite classify_run. cbv zeta.
  assert (Hev : forall c exc, per_position c = true -> per_position_event (Rpc c exc))
    by (intros c exc H; exists c, exc; auto).
  destruct (resolved (fst (share_by_rpc svc (figi p) (world s)))).
  { eexists _, _, _. split; [reflexivity|]. repeat constructor; apply Hev; reflexivity. }
  destruct (resolved (fst (bond_by_rpc svc (figi p) _))).
  { eexists _, _, _. split; [reflexivity|]. repeat constructor; apply Hev; reflexivity. }
  destruct (resolved (fst (etf_by_rpc svc (figi p) _)));
    (eexists _, _, _; split; [reflexivity|]; repeat constructor; apply Hev; reflexivity).
Qed.

(** The guarded price lookup (lines 115-121). *)
Lemma fetch_current_price_run (p : PositionsSecurities) (s : state W) :
  fetch_current_price W svc p s =
  let r := get_last_prices_rpc svc [JStr (figi p)] (world s) in
  (Ok (quoted_price (fst r)),
   logged s (snd r) [Rpc (market_data_get_last_prices [JStr (figi p)]) (raised (fst r))]).
Proof.
  unfold fetch_current_price, try_except, bind, remote, ret, lift, logged. cbv zeta.
  destruct (get_last_prices_rpc svc [JStr (figi p)] (world s)) as [[r|e] w']; simpl;
    [|reflexivity].
  destruct r as [[[|lp lps]]|]; simpl; try reflexivity.
  destruct (_money_value_to_float (price lp)); reflexivity.
Qed.

(** The loop body on a kept position. *)
Lemma portfolio_item_run (p : PositionsSecurities) (s s1 : state W) (l : locals) :
  classify W svc p s = (Ok l, s1) ->
  portfolio_item W svc p s =
  match py_float (balance p) with
  | Raise e => (Raise e, s1)
  | Ok q =>
      let r := get_last_prices_rpc svc [JStr (figi p)] (world s1) in
      (Ok (item_json p l q (quoted_price (fst r)), mul q (quoted_price (fst r))),
       logged s1 (snd r)
         [Rpc (market_data_get_last_prices [JStr (figi p)]) (raised (fst r))])
  end.
Proof.
  intros Hc. unfold portfolio_item. unfold bind at 1. rewrite Hc.
  unfold bind at 1. unfold lift at 1.
  destruct (py_float (balance p)) as [q|e]; [|reflexivity].
  unfold bind. rewrite fetch_current_price_run. reflexivity.
Qed.

Lemma portfolio_item_log (p : PositionsSecurities) (s : state W) :
  exists r w evs,
    portfolio_item W svc p s = (r, logged s w evs) /\ Forall per_position_event evs.
Proof.
  destruct (classify_total p s) as (l & w & evs & Hc & Hevs).
  rewrite (portfolio_item_run p s _ l Hc).
  destruct (py_float (balance p)) as [q|e].
  - cbv zeta. eexists _, _, (evs ++ [_])%list. split.
    + unfold logged. cbn [log world]. rewrite <- app_assoc. reflexivity.
    + apply Forall_app. split; [assumption|]. repeat constructor.
      eexists _, _. split; reflexivity.
  - eexists _, _, _. split; [reflexivity | assumption].
Qed.

(** What the loop body builds, whenever it gets to build it. *)
Lemma portfolio_item_inv (p : PositionsSecurities) (s s' : state W) (item : json) (v : float) :
  portfolio_item W svc p s = (Ok (item, v), s') ->
  exists l q cp,
    py_float (balance p) = Ok q /\
    item = item_json p l q cp /\
    v = mul q cp.
Proof.
  destruct (classify_total p s) as (l & w & evs & Hc & _).
  rewrite (portfolio_item_run p s _ l Hc).
  destruct (py_float (balance p)) as [q|e]; [|discriminate].
  cbv zeta. intros [= <- <- _]. eexists l, q, _. repeat split.
Qed.

Lemma item_json_current_value (p : PositionsSecurities) (l : locals) (q cp : float) :
  float_field (item_json p l q cp) "current_value" = mul q cp.
Proof. reflexivity. Qed.

Lemma logged_nil (s : state W) : s = logged s (world s) [].
Proof. destruct s as [w l]. unfold logged. simpl. rewrite app_nil_r. reflexivity. Qed.

Lemma logged_logged (s : state W) (w1 w2 : W) (evs1 evs2 : list event) :
  logged (logged s w1 evs1) w2 evs2 = logged s w2 (evs1 ++ evs2).
Proof. unfold logged. simpl. rewrite app_assoc. reflexivity. Qed.

(** The loop appends one item per kept position, in order, and adds the
    items' values to the running total from the left. *)
Lemma for_positions_inv (ps : list PositionsSecurities) :
  forall (acc : list json) (tot : float) (s s' : state W) (items : list json) (tot' : float),
    for_positions W svc ps acc tot s = (Ok (items, tot'), s') ->
    exists new,
      items = (acc ++ new)%list /\
      Forall2 (produces svc) (kept ps) new /\
      tot' = fold_left (fun a item => add a (float_field item "current_value")) new tot.
Proof.
  induction ps as [|p ps IH]; intros acc tot s s' items tot' H; simpl in H.
  - injection H as <- <- _. exists []. rewrite app_nil_r. repeat split. constructor.
  - unfold kept. simpl. destruct (Z.leb_spec (balance p) 0) as [Hle|Hgt].
    + replace (0 <? balance p) with false by (symmetry; apply Z.ltb_ge; lia).
      apply (IH _ _ _ _ _ _ H).
    + replace (0 <? balance p) with true by (symmetry; apply Z.ltb_lt; lia).
      unfold bind in H.
      destruct (portfolio_item W svc p s) as [[[item v]|e] s1] eqn:Hp; [|discriminate].
      destruct (portfolio_item_inv p s s1 item v Hp) as (l & q & cp & Hq & -> & ->).
      apply IH in H as (new & -> & Hnew & ->).
      exists (item_json p l q cp :: new). rewrite <- app_assoc. repeat split.
      constructor; [|exact Hnew].
      exists s, s1. rewrite item_json_current_value. exact Hp.
Qed.

(** The loop logs per-position calls only, however it ends. *)
Lemma for_positions_log (ps : list PositionsSecurities) :
  forall (acc : list json) (tot : float) (s : state W),
    exists r w evs,
      for_positions W svc ps acc tot s = (r, logged s w evs) /\
      Forall per_position_event evs.
Proof.
  induction ps as [|p ps IH]; intros acc tot s; simpl.
  - eexists _, _, []. split; [|constructor].
    unfold ret. rewrite <- logged_nil. reflexivity.
  - destruct (balance p <=? 0); [apply IH|].
    unfold bind.
    destruct (portfolio_item_log p s) as (r & w & evs & -> & Hevs).
    destruct r as [[item v]|e].
    + destruct (IH (acc ++ [item])%list (add tot v) (logged s w evs))
        as (r' & w' & evs' & -> & Hevs').
      eexists _, _, _. rewrite logged_logged. split; [reflexivity|].
      apply Forall_app; split; assumption.
    + eexists _, _, _. split; [reflexivity | assumption].
Qed.

(** On [int64] balances the loop runs to its end. *)
Lemma for_positions_int64 (ps : list PositionsSecurities) :
  Forall (fun p => int64 (balance p)) ps ->
  forall (acc : list json) (tot : float) (s : state W),
    exists items tot' s', for_positions W svc ps acc tot s = (Ok (items, tot'), s').
Proof.
  induction 1 as [|p ps Hp _ IH]; intros acc tot s; simpl.
  - eexists _, _, _. reflexivity.
  - destruct (balance p <=? 0); [apply IH|].
    unfold bind.
    destruct (classify_total p s) as (l & w & evs & Hc & _).
    rewrite (portfolio_item_run p s _ l Hc), (py_float_int64 _ Hp). cbv zeta.
    apply IH.
Qed.

(** ** The operations *)

(** Entering and leaving [with Client(...)]. *)
Lemma with_Client_run (A : Type) (token : json) (tgt : target) (body : Py W A) (s : state W) :
  with_Client W svc token tgt body s =
  match client svc token tgt (world s) with
  | (Raise e, w1) => (Raise e, logged s w1 [Connect token tgt (Some e)])
  | (Ok _, w1) =>
      let (r, s2) := body (logged s w1 [Connect token tgt None]) in
      (r, logged s2 (world s2) [Close])
  end.
Proof.
  step_py. destruct (client svc token tgt (world s)) as [[u|e] w1]; reflexivity.
Qed.

(** [get_portfolio] once the account list and the positions are in. *)
Lemma get_portfolio_account (token : json) (use_sandbox : bool) (s : state W)
    (w1 w2 w3 : W) (first : Account) (rest : list Account)
    (secs : list PositionsSecurities) :
  client svc token (grpc_target use_sandbox) (world s) = (Ok tt, w1) ->
  get_accounts_rpc svc w1 = (Ok {| accounts := first :: rest |}, w2) ->
  get_positions_rpc svc (id first) w2 = (Ok {| securities := secs |}, w3) ->
  get_portfolio W svc token use_sandbox s =
  match for_positions W svc secs [] zero
          (logged s w3 [Connect token (grpc_target use_sandbox) None;
                        Rpc users_get_accounts None;
                        Rpc (operations_get_positions (id first)) None]) with
  | (Ok (items, total), s2) =>
      (Ok (portfolio_response (id first) items total), logged s2 (world s2) [Close])
  | (Raise e, s2) => (Ok (failure e), logged s2 (world s2) [Close])
  end.
Proof.
  intros Hc Ha Hp.
  unfold get_portfolio. unfold try_except. rewrite with_Client_run, Hc.
  step_py. rewrite Ha. cbn [accounts raised world log].
  rewrite Hp. cbn [securities raised world log].
  rewrite <- !app_assoc. cbn [app].
  destruct secs as [|p ps]; [reflexivity|].
  destruct (for_positions W svc (p :: ps) [] zero _) as [[[items total]|e] s2];
    reflexivity.
Qed.

(** The five ways [get_portfolio] can go. *)
Lemma get_portfolio_cases (token : json) (use_sandbox : bool) (s : state W) :
  let tgt := grpc_target use_sandbox in
  (exists e w,
      get_portfolio W svc token use_sandbox s =
      (Ok (failure e), logged s w [Connect token tgt (Some e)]))
  \/ (exists e w,
      get_portfolio W svc token use_sandbox s =
      (Ok (failure e),
       logged s w [Connect token tgt None; Rpc users_get_accounts (Some e); Close]))
  \/ (exists w,
      get_portfolio W svc token use_sandbox s =
      (Ok no_accounts_response,
       logged s w [Connect token tgt None; Rpc users_get_accounts None; Close]))
  \/ (exists first e w,
      get_portfolio W svc token use_sandbox s =
      (Ok (failure e),
       logged s w [Connect token tgt None; Rpc users_get_accounts None;
                   Rpc (operations_get_positions (id first)) (Some e); Close]))
  \/ (exists first secs w r s2,
      for_positions W svc secs [] zero
        (logged s w [Connect token tgt None; Rpc users_get_accounts None;
                     Rpc (operations_get_positions (id first)) None]) = (r, s2) /\
      get_portfolio W svc token use_sandbox s =
      (Ok match r with
          | Ok (items, total) => portfolio_response (id first) items total
          | Raise e => failure e
          end,
       logged s2 (world s2) [Close])).
Proof.
  cbv zeta.
  destruct (client svc token (grpc_target use_sandbox) (world s)) as [[[]|e] w1] eqn:Hc.
  2:{ left. exists e, w1. unfold get_portfolio, try_except.
      rewrite with_Client_run, Hc. reflexivity. }
  destruct (get_accounts_rpc svc w1) as [[[[|first rest]]|e] w2] eqn:Ha.
  - right; right; left. exists w2.
    unfold get_portfolio, try_except. rewrite with_Client_run, Hc.
    step_py. rewrite Ha. cbn. rewrite <- !app_assoc. reflexivity.
  - destruct (get_positions_rpc svc (id first) w2) as [[[secs]|e] w3] eqn:Hp.
    + right; right; right; right.
      destruct (for_positions W svc secs [] zero
                  (logged s w3 [Connect token (grpc_target use_sandbox) None;
                                Rpc users_get_accounts None;
                                Rpc (operations_get_positions (id first)) None]))
        as [r s2] eqn:Hl.
      exists first, secs, w3, r, s2. split; [exact Hl|].
      rewrite (get_portfolio_account _ _ _ _ _ _ _ _ _ Hc Ha Hp), Hl.
      destruct r as [[items total]|e]; reflexivity.
    + right; right; right; left. exists first, e, w3.
      unfold get_portfolio, try_except. rewrite with_Client_run, Hc.
      step_py. rewrite Ha. cbn [accounts raised world log]. rewrite Hp. cbn.
      rewrite <- !app_assoc. reflexivity.
  - right; left. exists e, w2.
    unfold get_portfolio, try_except. rewrite with_Client_run, Hc.
    step_py. rewrite Ha. cbn. rewrite <- !app_assoc. reflexivity.
Qed.

(** C7.  Without accounts [get_portfolio] answers at once: the account
    list is the only remote call, the response is a success with an empty
    portfolio and zero totals, and it has no [account_id] key. *)
Theorem get_portfolio_no_accounts (token : json) (use_sandbox : bool)
    (s : state W) (w1 w2 : W) :
  client svc token (grpc_target use_sandbox) (world s) = (Ok tt, w1) ->
  get_accounts_rpc svc w1 = (Ok {| accounts := [] |}, w2) ->
  exists resp evs,
    get_portfolio W svc token use_sandbox s = (Ok resp, logged s w2 evs) /\
    rpcs evs = [users_get_accounts] /\
    field resp "success" = Some (JBool true) /\
    field resp "portfolio" = Some (JList []) /\
    field resp "total_value" = Some (JInt 0) /\
    field resp "total_cost" = Some (JInt 0) /\
    field resp "total_pnl" = Some (JInt 0) /\
    field resp "total_pnl_percent" = Some (JInt 0) /\
    has_key resp "account_id" = false.
Proof.
  intros Hc Ha.
  exists no_accounts_response,
    [Connect token (grpc_target use_sandbox) None; Rpc users_get_accounts None; Close].
  split; [|repeat split].
  unfold get_portfolio. unfold try_except. rewrite with_Client_run, Hc.
  step_py. rewrite Ha. cbn. rewrite <- !app_assoc. reflexivity.
Qed.


Lemma kept_positive (secs : list PositionsSecurities) :
  Forall (fun p => 0 < balance p) (kept secs).
Proof.
  apply Forall_forall. intros p Hin. apply filter_In in Hin as [_ H].
  apply Z.ltb_lt. exact H.
Qed.

Lemma produces_inv (p : PositionsSecurities) (item : json) :
  produces svc p item ->
  exists s0 l s1 q,
    classify W svc p s0 = (Ok l, s1) /\
    py_float (balance p) = Ok q /\
    item = item_json p l q
             (quoted_price (fst (get_last_prices_rpc svc [JStr (figi p)] (world s1)))).
Proof.
  intros (s0 & s2 & H).
  destruct (classify_total p s0) as (l & w & evs & Hc & _).
  rewrite (portfolio_item_run p s0 _ l Hc) in H.
  destruct (py_float (balance p)) as [q|e]; [|discriminate].
  cbv zeta in H. injection H as <- _ _.
  exists s0, l, (logged s0 w evs), q. repeat split. exact Hc.
Qed.

Lemma Forall2_weaken (A B : Type) (P Q : A -> B -> Prop) (R : A -> Prop)
    (l : list A) (l' : list B) :
  (forall a b, R a -> P a b -> Q a b) ->
  Forall R l -> Forall2 P l l' -> Forall2 Q l l'.
Proof.
  intros HPQ HR H. induction H as [|a b l l' Hab _ IH]; constructor.
  - apply HPQ; [exact (Forall_inv HR) | exact Hab].
  - apply IH. exact (Forall_inv_tail HR).
Qed.

(** A successful answer for an account lists what the loop produced. *)
Lemma get_portfolio_success_inv (token : json) (use_sandbox : bool) (s s' : state W)
    (w1 w2 w3 : W) (first : Account) (rest : list Account)
    (secs : list PositionsSecurities) (resp : json) :
  client svc token (grpc_target use_sandbox) (world s) = (Ok tt, w1) ->
  get_accounts_rpc svc w1 = (Ok {| accounts := first :: rest |}, w2) ->
  get_positions_rpc svc (id first) w2 = (Ok {| securities := secs |}, w3) ->
  get_portfolio W svc token use_sandbox s = (Ok resp, s') ->
  field resp "success" = Some (JBool true) ->
  exists items,
    resp = portfolio_response (id first) items (sum_current_value items) /\
    Forall2 (produces svc) (kept secs) items.
Proof.
  intros Hc Ha Hp Hrun Hs.
  rewrite (get_portfolio_account _ _ _ _ _ _ _ _ _ Hc Ha Hp) in Hrun.
  destruct (for_positions W svc secs [] zero _) as [[[items total]|e] s2] eqn:Hl.
  - injection Hrun as <- _.
    apply for_positions_inv in Hl as (new & -> & Hnew & ->).
    exists new. split; [reflexivity | exact Hnew].
  - injection Hrun as <- _. discriminate Hs.
Qed.

(** C4.  A position with a balance of zero or less never reaches
    [portfolio]: the items of a successful answer are, in order, those of
    the positions with a positive balance, each with the position's figi
    and its balance as quantity.  A position with balance 5 whose figi
    the stock lookup resolves gives an item of type STOCK with quantity
    5.0, average price 0.0 and a current value of 5.0 times the current
    price, which is the price the last-price call answered in the state the
    stock lookup left: [float(units) + float(nano) / 1e9] of its first
    entry. *)
Theorem get_portfolio_kept_positions :
  (forall token use_sandbox s w1 w2 w3 first rest secs,
      client svc token (grpc_target use_sandbox) (world s) = (Ok tt, w1) ->
      get_accounts_rpc svc w1 = (Ok {| accounts := first :: rest |}, w2) ->
      get_positions_rpc svc (id first) w2 = (Ok {| securities := secs |}, w3) ->
      (forall resp s',
          get_portfolio W svc token use_sandbox s = (Ok resp, s') ->
          field resp "success" = Some (JBool true) ->
          exists items,
            field resp "portfolio" = Some (JList items) /\
            Forall2 (fun p item =>
                       0 < balance p /\
                       produces svc p item /\
                       field item "figi" = Some (JStr (figi p)) /\
                       field item "quantity" = Some (JFloat (of_Z (balance p))))
                    (filter (fun p => 0 <? balance p) secs) items)
      /\ (Forall (fun p => int64 (balance p)) secs ->
          exists resp s',
            get_portfolio W svc token use_sandbox s = (Ok resp, s') /\
            field resp "success" = Some (JBool true)))
  /\ (forall p s i w1 r w2,
        balance p = 5 ->
        share_by_rpc svc (figi p) (world s) = (Ok (Some {| instrument := Some i |}), w1) ->
        get_last_prices_rpc svc [JStr (figi p)] w1 = (r, w2) ->
        exists item,
          portfolio_item W svc p s =
          (Ok (item, mul (of_Z 5) (quoted_price r)),
           logged s w2
             [Rpc (instruments_share_by (figi p)) None;
              Rpc (market_data_get_last_prices [JStr (figi p)]) (raised r)]) /\
          field item "type" = Some (JStr "STOCK") /\
          field item "ticker" = Some (JStr (ticker i)) /\
          field item "name" = Some (JStr (name i)) /\
          field item "quantity" = Some (JFloat (of_Z 5)) /\
          field item "average_price" = Some (JFloat zero) /\
          field item "current_price" = Some (JFloat (quoted_price r)) /\
          field item "current_value" = Some (JFloat (mul (of_Z 5) (quoted_price r))) /\
          (forall q rest,
              r = Ok (Some {| last_prices := {| price := Some q |} :: rest |}) ->
              int64 (units q) ->
              int64 (nano q) ->
              field item "current_price" =
              Some (JFloat (add (of_Z (units q)) (div (of_Z (nano q)) f1e9))) /\
              field item "current_value" =
              Some (JFloat (mul (of_Z 5)
                              (add (of_Z (units q)) (div (of_Z (nano q)) f1e9)))))).
Proof.
  split.
  - intros token use_sandbox s w1 w2 w3 first rest secs Hc Ha Hp. split.
    + intros resp s' Hrun Hs.
      destruct (get_portfolio_success_inv _ _ _ _ _ _ _ _ _ _ _ Hc Ha Hp Hrun Hs)
        as (items & -> & Hitems).
      exists items. split; [reflexivity|].
      refine (Forall2_weaken _ _ _ _ _ _ _ _ (kept_positive secs) Hitems).
      intros p item Hpos Hprod. cbv beta in Hpos.
      destruct (produces_inv _ _ Hprod) as (s0 & l & s1 & q & _ & Hq & ->).
      apply py_float_inv in Hq as [-> _]. repeat split; assumption.
    + intros H64.
      rewrite (get_portfolio_account _ _ _ _ _ _ _ _ _ Hc Ha Hp).
      destruct (for_positions_int64 secs H64 [] zero
                  (logged s w3 [Connect token (grpc_target use_sandbox) None;
                                Rpc users_get_accounts None;
                                Rpc (operations_get_positions (id first)) None]))
        as (items & total & s2 & ->).
      eexists _, _. split; reflexivity.
  - intros p s i w1 r w2 Hb H1 H2.
    assert (Hc : classify W svc p s =
                 (Ok (found_locals i "STOCK"),
                  logged s w1 [Rpc (instruments_share_by (figi p)) None])).
    { rewrite classify_run. cbv zeta. rewrite H1. reflexivity. }
    rewrite (portfolio_item_run p s _ _ Hc), Hb.
    change (py_float 5) with (Ok (of_Z 5)). cbv zeta.
    cbn [world logged]. rewrite H2. cbn [fst snd]. rewrite logged_logged.
    eexists. split; [reflexivity|]. unfold item_json.
    do 7 (split; [reflexivity|]).
    intros q rest -> Hu Hn. unfold quoted_price. cbn [price].
    unfold _money_value_to_float.
    rewrite (py_float_int64 _ Hu), (py_float_int64 _ Hn). split; reflexivity.
Qed.

(** C5.  When the last-price call of a position raises, the loop body
    still builds the item, with current price 0.0 and current value 0.0.
    For an account with [int64] balances the answer is a success that
    lists every position with a positive balance, whatever the price calls
    do; an item whose price call cannot but raise has price and value
    0.0. *)
Theorem price_lookup_failure_is_local :
  (forall p s l s1 e w2,
      0 < balance p ->
      int64 (balance p) ->
      classify W svc p s = (Ok l, s1) ->
      get_last_prices_rpc svc [JStr (figi p)] (world s1) = (Raise e, w2) ->
      exists item,
        portfolio_item W svc p s =
        (Ok (item, zero),
         logged s1 w2 [Rpc (market_data_get_last_prices [JStr (figi p)]) (Some e)]) /\
        field item "figi" = Some (JStr (figi p)) /\
        field item "current_price" = Some (JFloat zero) /\
        field item "current_value" = Some (JFloat zero))
  /\ (forall token use_sandbox s w1 w2 w3 first rest secs,
        client svc token (grpc_target use_sandbox) (world s) = (Ok tt, w1) ->
        get_accounts_rpc svc w1 = (Ok {| accounts := first :: rest |}, w2) ->
        get_positions_rpc svc (id first) w2 = (Ok {| securities := secs |}, w3) ->
        Forall (fun p => int64 (balance p)) secs ->
        exists resp s' items,
          get_portfolio W svc token use_sandbox s = (Ok resp, s') /\
          field resp "success" = Some (JBool true) /\
          field resp "portfolio" = Some (JList items) /\
          Forall2 (fun p item =>
                     field item "figi" = Some (JStr (figi p)) /\
                     ((forall w, exists e w',
                          get_last_prices_rpc svc [JStr (figi p)] w = (Raise e, w')) ->
                      field item "current_price" = Some (JFloat zero) /\
                      field item "current_value" = Some (JFloat zero)))
                  (filter (fun p => 0 <? balance p) secs) items).
Proof.
  split.
  - intros p s l s1 e w2 Hpos H64 Hc Hr.
    rewrite (portfolio_item_run p s _ l Hc), (py_float_int64 _ H64). cbv zeta.
    rewrite Hr. cbn [fst snd raised quoted_price].
    rewrite (mul_quantity_zero _ _ Hpos (py_float_int64 _ H64)).
    eexists. split; [reflexivity|]. unfold item_json.
    rewrite (mul_quantity_zero _ _ Hpos (py_float_int64 _ H64)).
    repeat split.
  - intros token use_sandbox s w1 w2 w3 first rest secs Hc Ha Hp H64.
    destruct (for_positions_int64 secs H64 [] zero
                (logged s w3 [Connect token (grpc_target use_sandbox) None;
                              Rpc users_get_accounts None;
                              Rpc (operations_get_positions (id first)) None]))
      as (items & total & s2 & Hl).
    pose proof (get_portfolio_account _ _ _ _ _ _ _ _ _ Hc Ha Hp) as Hrun.
    rewrite Hl in Hrun.
    apply for_positions_inv in Hl as (new & -> & Hnew & ->).
    eexists _, _, new. split; [exact Hrun|]. split; [reflexivity|].
    split; [reflexivity|].
    refine (Forall2_weaken _ _ _ _ _ _ _ _ (kept_positive secs) Hnew).
    intros p item Hpos Hprod. cbv beta in Hpos.
    destruct (produces_inv _ _ Hprod) as (s0 & l & s1 & q & _ & Hq & ->).
    split; [reflexivity|].
    intros Hdown. destruct (Hdown (world s1)) as (e & w' & ->).
    cbn [fst quoted_price]. unfold item_json.
    rewrite (mul_quantity_zero _ _ Hpos Hq). split; reflexivity.
Qed.




(** C10.  A failure answer of [get_accounts] carries [accounts: []], and
    one of [search_instruments] carries [instruments: []], next to
    [success: false] and the error string. *)
Theorem failure_keeps_empty_list (token : json) (use_sandbox : bool) (s : state W) :
  (forall resp s',
      get_accounts W svc token use_sandbox s = (Ok resp, s') ->
      field resp "success" = Some (JBool false) ->
      exists e,
        resp = JDict [("success", JBool false);
                      ("accounts", JList []);
                      ("error", JStr (str e))])
  /\ (forall query resp s',
        search_instruments W svc token query use_sandbox s = (Ok resp, s') ->
        field resp "success" = Some (JBool false) ->
        exists e,
          resp = JDict [("success", JBool false);
                        ("instruments", JList []);
                        ("error", JStr (str e))]).
Proof.
  split.
  - intros resp s' H Hs. unfold get_accounts, try_except in H.
    rewrite with_Client_run in H.
    destruct (client svc token (grpc_target use_sandbox) (world s)) as [[[]|e] w1].
    2:{ injection H as <- _. exists e. reflexivity. }
    revert H. step_py.
    destruct (get_accounts_rpc svc w1) as [[ar|e] w2]; intros [= <- _].
    + discriminate Hs.
    + exists e. reflexivity.
  - intros query resp s' H Hs. unfold search_instruments, try_except in H.
    rewrite with_Client_run in H.
    destruct (client svc token (grpc_target use_sandbox) (world s)) as [[[]|e] w1].
    2:{ injection H as <- _. exists e. reflexivity. }
    revert H. step_py.
    destruct (find_instrument_rpc svc query w1) as [[fr|e] w2]; intros [= <- _].
    + discriminate Hs.
    + exists e. reflexivity.
Qed.

Lemma per_position_not_boundary (token : json) (use_sandbox : bool) (ev : event) :
  per_position_event ev -> reaches_boundary (op_get_portfolio token use_sandbox) ev = None.
Proof. intros (c & exc & -> & Hc). simpl. rewrite Hc. reflexivity. Qed.

(** Every operation returns a response; an exception that reached the
    boundary of the operation is reported in it. *)
Lemma operation_outcome (op : operation) (s : state W) :
  exists resp w evs,
    run_operation svc op s = (Ok resp, logged s w evs) /\
    forall ev e,
      In ev evs -> reaches_boundary op ev = Some e ->
      field resp "success" = Some (JBool false) /\
      field resp "error" = Some (JStr (str e)).
Proof.
  destruct op as [token sb|token sb|token query sb|token|token figi sb];
    cbn [run_operation].
  - destruct (get_portfolio_cases token sb s)
      as [(e & w & H)|[(e & w & H)|[(w & H)|[(first & e & w & H)|
          (first & secs & w & r & s2 & Hl & H)]]]];
      rewrite H; try (eexists _, _, _; split; [reflexivity | boundary_cases]).
    destruct (for_positions_log secs [] zero
                (logged s w [Connect token (grpc_target sb) None;
                             Rpc users_get_accounts None;
                             Rpc (operations_get_positions (id first)) None]))
      as (r' & w' & evs & Hl' & Hevs).
    rewrite Hl in Hl'. injection Hl' as -> ->.
    eexists _, _, _. rewrite !logged_logged. split; [reflexivity|].
    intros ev e Hin Hb. exfalso.
    cbn [app In] in Hin. destruct Hin as [<-|[<-|[<-|Hin]]]; try discriminate Hb.
    apply in_app_or in Hin as [Hin|[<-|[]]]; [|discriminate Hb].
    rewrite (per_position_not_boundary token sb ev) in Hb; [discriminate Hb|].
    rewrite Forall_forall in Hevs. apply Hevs. exact Hin.
  - unfold get_accounts, try_except. rewrite with_Client_run.
    destruct (client svc token (grpc_target sb) (world s)) as [[[]|e] w1].
    2:{ eexists _, _, _; split; [reflexivity | boundary_cases]. }
    step_py. destruct (get_accounts_rpc svc w1) as [[ar|e] w2];
      norm_log;
      (eexists _, _, _; split; [reflexivity | boundary_cases]).
  - unfold search_instruments, try_except. rewrite with_Client_run.
    destruct (client svc token (grpc_target sb) (world s)) as [[[]|e] w1].
    2:{ eexists _, _, _; split; [reflexivity | boundary_cases]. }
    step_py. destruct (find_instrument_rpc svc query w1) as [[fr|e] w2];
      norm_log;
      (eexists _, _, _; split; [reflexivity | boundary_cases]).
  - unfold create_demo_account, try_except. rewrite with_Client_run.
    destruct (client svc token INVEST_GRPC_API_SANDBOX (world s)) as [[[]|e] w1].
    2:{ eexists _, _, _; split; [reflexivity | boundary_cases]. }
    step_py. destruct (open_sandbox_account_rpc svc w1) as [[acc|e] w2].
    2:{ norm_log.
        eexists _, _, _; split; [reflexivity | boundary_cases]. }
    cbn [world log raised].
    destruct (sandbox_pay_in_rpc svc (account_id acc) pay_in_amount w2) as [[paid|e] w3];
      norm_log;
      (eexists _, _, _; split; [reflexivity | boundary_cases]).
  - unfold get_current_price, try_except. rewrite with_Client_run.
    destruct (client svc token (grpc_target sb) (world s)) as [[[]|e] w1].
    2:{ eexists _, _, _; split; [reflexivity | boundary_cases]. }
    step_py. destruct (get_last_prices_rpc svc [figi] w1) as [[lp|e] w2].
    2:{ norm_log.
        eexists _, _, _; split; [reflexivity | boundary_cases]. }
    destruct lp as [[[|p ps]]|]; cbn [raised];
      try (norm_log;
           eexists _, _, _; split; [reflexivity | boundary_cases]).
    destruct (_money_value_to_float (price p)) as [f|e];
      norm_log;
      (eexists _, _, _; split; [reflexivity | boundary_cases]).
Qed.

(** C1, as the code has it.  Each of the five operations returns a
    response and never lets an exception out.  An exception raised on
    connecting, or by a remote call that is not one of the per-position
    lookups of [get_portfolio], yields [success: false] with the
    exception's [str()] as [error], which is non-empty when that string
    is. *)
Theorem operation_never_propagates (op : operation) (s : state W) :
  exists resp w evs,
    run_operation svc op s = (Ok resp, logged s w evs) /\
    forall ev e,
      In ev evs -> reaches_boundary op ev = Some e ->
      field resp "success" = Some (JBool false) /\
      field resp "error" = Some (JStr (str e)) /\
      (str e <> "" -> exists msg, field resp "error" = Some (JStr msg) /\ msg <> "").
Proof.
  destruct (operation_outcome op s) as (resp & w & evs & Hrun & Hb).
  exists resp, w, evs. split; [exact Hrun|].
  intros ev e Hin Hev. destruct (Hb ev e Hin Hev) as [Hs He].
  repeat split; try assumption.
  intros Hne. exists (str e). split; assumption.
Qed.

(** What [main] does with a request that parsed to a dictionary. *)
Lemma main_unknown_command (prog command : string) (rest : list string)
    (raw : string) (s : state W) :
  supported_command command = false ->
  raw = "" \/ (exists e, json_loads raw = Raise e)
  \/ (exists d, json_loads raw = Ok (JDict d)) ->
  main W svc json_loads (prog :: command :: rest) (Ok raw) s =
  (Ok (unknown_command command), s).
Proof.
  unfold supported_command. intros Hc Hraw.
  apply orb_false_elim in Hc as [Hc H5]. apply orb_false_elim in Hc as [Hc H4].
  apply orb_false_elim in Hc as [Hc H3]. apply orb_false_elim in Hc as [H1 H2].
  unfold main; cbn [bind lift].
  assert (Hd : exists d,
             (if String.eqb raw "" then JDict []
              else match json_loads raw with
                   | Ok v => v
                   | Raise _ => JDict []
                   end) = JDict d).
  { destruct (String.eqb raw "") eqn:E; [exists []; reflexivity|].
    destruct Hraw as [->|[(e & ->)|(d & ->)]]; [discriminate E| |]; eauto. }
  destruct Hd as (d & ->).
  unfold bind, lift, py_get, ret. rewrite H1, H2, H3, H4, H5. reflexivity.
Qed.

(** C2 on a payload that is a JSON document but not an object: the
    look-up of the token raises [AttributeError] before the command is
    looked at, and nothing is printed. *)
Theorem main_non_object_payload (prog command : string) (rest : list string)
    (raw : string) (v : json) (s : state W) :
  raw <> "" ->
  json_loads raw = Ok v ->
  is_dict v = false ->
  main W svc json_loads (prog :: command :: rest) (Ok raw) s =
  (Raise (AttributeError (type_name v) "get"), s).
Proof.
  intros Hne Hv Hd. unfold main; cbn [bind lift].
  destruct (String.eqb_spec raw "") as [->|_]; [contradiction|].
  rewrite Hv. unfold bind, lift.
  destruct v; try discriminate Hd; reflexivity.
Qed.

(** The read of standard input is not guarded: what it raises leaves
    [main]. *)
Lemma main_stdin_read_failure (prog command : string) (rest : list string)
    (e : exn) (s : state W) :
  main W svc json_loads (prog :: command :: rest) (Raise e) s = (Raise e, s).
Proof. reflexivity. Qed.


End Properties.

(** ** Concrete runs *)

Module Runs.

Import Script.

(** C1 as stated fails twice.  On the [broker] account the share lookup
    and the price lookup of the bond raise, and [get_portfolio] answers
    [success: true] with no [error].  On a service whose exception has an
    empty [str()], [get_accounts] answers with the empty [error]. *)
Lemma swallowed_exception_and_empty_error :
  (exists resp s' ev e,
      get_portfolio nat (service broker) token false start = (Ok resp, s') /\
      In ev (log s') /\
      ev = Rpc (instruments_share_by "BBG00T22WKV5")
             (Some (PyExc "RequestError" "NOT_FOUND")) /\
      event_exception ev = Some e /\
      field resp "success" = Some (JBool true) /\
      field resp "error" = None)
  /\ (exists resp s' ev e,
        get_accounts nat (service (failing (PyExc "Exception" ""))) token false start =
        (Ok resp, s') /\
        In ev (log s') /\
        ev = Rpc users_get_accounts (Some (PyExc "Exception" "")) /\
        event_exception ev = Some e /\
        field resp "success" = Some (JBool false) /\
        field resp "error" = Some (JStr ""))
  /\ In (Rpc (market_data_get_last_prices [JStr "BBG00T22WKV5"]) (Some outage))
       (log (snd (get_portfolio nat (service broker) token false start))).
Proof.
  split; [|split].
  - eexists _, _, _, _. split; [vm_compute; reflexivity|].
    split; [|split; [reflexivity|]]; [cbn [log In]; auto 12|].
    repeat split.
  - eexists _, _, _, _. split; [vm_compute; reflexivity|].
    split; [|split; [reflexivity|]]; [cbn [log In]; auto|].
    repeat split.
  - vm_compute. auto 12.
Qed.

Lemma operation_never_propagates_witness :
  let run := run_operation (service (failing outage)) (op_get_accounts token true) start in
  In (Rpc users_get_accounts (Some outage)) (log (snd run)) /\
  reaches_boundary (op_get_accounts token true) (Rpc users_get_accounts (Some outage)) =
  Some outage /\
  field (response_of run) "success" = Some (JBool false) /\
  field (response_of run) "error" = Some (JStr "UNAVAILABLE").
Proof.
  cbv zeta.
  destruct (operation_never_propagates nat (service (failing outage))
              (op_get_accounts token true) start) as (resp & w & evs & Hrun & Hb).
  unfold response_of. rewrite Hrun. cbn [fst snd].
  vm_compute in Hrun. injection Hrun as <- <- <-.
  split; [cbn; auto|]. split; [reflexivity|].
  destruct (Hb (Rpc users_get_accounts (Some outage)) outage) as (Hs & He & _);
    [cbn; auto | reflexivity |].
  split; assumption.
Defined.

(** The failing input of C2: an unknown command with the payload [[]]. *)
Lemma main_non_object_payload_witness :
  "[]" <> "" /\
  loads "[]" = Ok (JList []) /\
  is_dict (JList []) = false /\
  supported_command "get_balance" = false /\
  main nat (service broker) loads ["tinkoff_service.py"; "get_balance"] (Ok "[]") start =
  (Raise (PyExc "AttributeError" "'list' object has no attribute 'get'"), start).
Proof.
  split; [discriminate|]. split; [reflexivity|]. split; [reflexivity|].
  split; [reflexivity|].
  apply (main_non_object_payload nat (service broker) loads
           "tinkoff_service.py" "get_balance" [] "[]" (JList []) start);
    [discriminate | reflexivity | reflexivity].
Defined.


Lemma holdings_int64 : Forall (fun p => int64 (balance p)) holdings.
Proof. repeat constructor; vm_compute; discriminate. Qed.

Lemma get_portfolio_kept_positions_witness :
  (exists items,
      field (response_of (get_portfolio nat (service broker) token false start))
        "portfolio" = Some (JList items) /\
      Forall2 (fun p item =>
                 field item "figi" = Some (JStr (figi p)) /\
                 field item "quantity" = Some (JFloat (of_Z (balance p))))
              [sber; ofz; tmos; unlisted] items)
  /\ (get_last_prices_rpc (service broker) [JStr (figi sber)] 1%nat =
      (quote 123 450000000, 2%nat) /\
      exists item v s',
        portfolio_item nat (service broker) sber start = (Ok (item, v), s') /\
        field item "type" = Some (JStr "STOCK") /\
        field item "quantity" = Some (JFloat (of_Z 5)) /\
        field item "average_price" = Some (JFloat zero) /\
        field item "current_price" =
        Some (JFloat (add (of_Z 123) (div (of_Z 450000000) f1e9))) /\
        field item "current_value" =
        Some (JFloat (mul (of_Z 5) (add (of_Z 123) (div (of_Z 450000000) f1e9))))).
Proof.
  destruct (get_portfolio_kept_positions nat (service broker)) as [Hkept Hfive].
  split.
  - destruct (Hkept token false start 1%nat 2%nat 3%nat main_account [] holdings
                eq_refl eq_refl eq_refl) as [Hitems Hok].
    destruct (Hok holdings_int64) as (resp & s' & Hrun & Hs).
    destruct (Hitems resp s' Hrun Hs) as (items & Hp & Hall).
    exists items. unfold response_of. rewrite Hrun. split; [exact Hp|].
    change (filter (fun p => 0 <? balance p) holdings)
      with [sber; ofz; tmos; unlisted] in Hall.
    revert Hall. apply Forall2_impl. intros p item (_ & _ & Hf & Hq).
    split; assumption.
  - split; [reflexivity|].
    destruct (Hfive sber start {| ticker := "SBER"; name := "Sberbank" |} 1%nat
                (quote 123 450000000) 2%nat eq_refl eq_refl eq_refl)
      as (item & Hrun & Ht & _ & _ & Hq & Ha & _ & _ & Hquoted).
    assert (Hu : int64 123) by (split; [intros H; discriminate H | reflexivity]).
    assert (Hn : int64 450000000) by (split; [intros H; discriminate H | reflexivity]).
    destruct (Hquoted {| units := 123; nano := 450000000 |} [] eq_refl Hu Hn)
      as [Hcp Hcv].
    eexists item, _, _. split; [exact Hrun|]. repeat split; assumption.
Defined.

Lemma price_lookup_failure_is_local_witness :
  (exists item s',
      portfolio_item nat (service broker) ofz start = (Ok (item, zero), s') /\
      In (Rpc (market_data_get_last_prices [JStr "BBG00T22WKV5"]) (Some outage)) (log s') /\
      field item "figi" = Some (JStr "BBG00T22WKV5") /\
      field item "current_price" = Some (JFloat zero) /\
      field item "current_value" = Some (JFloat zero))
  /\ (exists items,
        field (response_of (get_portfolio nat (service broker) token false start))
          "success" = Some (JBool true) /\
        field (response_of (get_portfolio nat (service broker) token false start))
          "portfolio" = Some (JList items) /\
        map (fun item => field item "figi") items =
        [Some (JStr "BBG004730N88"); Some (JStr "BBG00T22WKV5");
         Some (JStr "BBG333333333"); Some (JStr "BBG000000001")]).
Proof.
  destruct (price_lookup_failure_is_local nat (service broker)) as [Hitem Hall].
  split.
  - assert (H64 : int64 (balance ofz))
      by (split; [intros H; discriminate H | reflexivity]).
    assert (Hc : classify nat (service broker) ofz start =
                 (Ok (found_locals {| ticker := "SU29013RMFS8"; name := "OFZ 29013" |}
                        "BOND"),
                  logged start 2%nat
                    [Rpc (instruments_share_by "BBG00T22WKV5")
                       (Some (PyExc "RequestError" "NOT_FOUND"));
                     Rpc (instruments_bond_by "BBG00T22WKV5") None]))
      by (vm_compute; reflexivity).
    destruct (Hitem ofz start _ _ outage 3%nat eq_refl H64 Hc eq_refl)
      as (item & Hrun & Hf & Hp & Hv).
    exists item. eexists. split; [exact Hrun|].
    split; [cbn; auto|]. repeat split; assumption.
  - destruct (Hall token false start 1%nat 2%nat 3%nat main_account [] holdings
                eq_refl eq_refl eq_refl holdings_int64)
      as (resp & s' & items & Hrun & Hs & Hp & Hitems).
    exists items. unfold response_of. rewrite Hrun. cbn [fst].
    split; [exact Hs|]. split; [exact Hp|].
    change (filter (fun p => 0 <? balance p) holdings)
      with [sber; ofz; tmos; unlisted] in Hitems.
    inversion Hitems as [|p1 i1 l1 l1' [H1 _] T1]; subst.
    inversion T1 as [|p2 i2 l2 l2' [H2 _] T2]; subst.
    inversion T2 as [|p3 i3 l3 l3' [H3 _] T3]; subst.
    inversion T3 as [|p4 i4 l4 l4' [H4 _] T4]; subst.
    inversion T4; subst. cbn [map]. rewrite H1, H2, H3, H4. reflexivity.
Defined.


Lemma get_portfolio_no_accounts_witness :
  exists resp evs,
    get_portfolio nat (service no_accounts) token true start =
    (Ok resp, logged start 2%nat evs) /\
    rpcs evs = [users_get_accounts] /\
    field resp "portfolio" = Some (JList []) /\
    field resp "total_value" = Some (JInt 0) /\
    has_key resp "account_id" = false.
Proof.
  destruct (get_portfolio_no_accounts nat (service no_accounts) token true start
              1%nat 2%nat eq_refl eq_refl)
    as (resp & evs & Hrun & Hcalls & _ & Hp & Hv & _ & _ & _ & Hk).
  exists resp, evs. repeat split; assumption.
Defined.


Lemma failure_keeps_empty_list_witness :
  field (response_of (get_accounts nat (service (failing outage)) token false start))
    "accounts" = Some (JList [])
  /\ field (response_of (search_instruments nat (service (failing outage)) token
                           (JStr "SBER") false start))
       "instruments" = Some (JList []).
Proof.
  destruct (failure_keeps_empty_list nat (service (failing outage)) token false start)
    as [Hacc Hsearch].
  split.
  - destruct (get_accounts nat (service (failing outage)) token false start)
      as [r s'] eqn:Hrun.
    assert (Hr : exists resp, r = Ok resp /\ field resp "success" = Some (JBool false)).
    { vm_compute in Hrun. injection Hrun as <- _. eexists. split; reflexivity. }
    destruct Hr as (resp & -> & Hs).
    destruct (Hacc resp s' eq_refl Hs) as (e & ->). reflexivity.
  - destruct (search_instruments nat (service (failing outage)) token (JStr "SBER")
                false start) as [r s'] eqn:Hrun.
    assert (Hr : exists resp, r = Ok resp /\ field resp "success" = Some (JBool false)).
    { vm_compute in Hrun. injection Hrun as <- _. eexists. split; reflexivity. }
    destruct Hr as (resp & -> & Hs).
    destruct (Hsearch (JStr "SBER") resp s' Hrun Hs) as (e & ->). reflexivity.
Defined.




End Runs.

(** * Further properties *)

Section MoneyValue.

Lemma of_Z_nonneg_shape (z : Z) :
  0 <= z -> int64 z ->
  exists f, of_Z z = f /\ is_finite f = true /\ has_sign false f.
Proof.
  intros Hz H64. exists (of_Z z). split; [reflexivity|]. split.
  - apply of_Z_finite. exact H64.
  - destruct (Z.eq_dec z 0) as [->|Hne]; [reflexivity|].
    apply of_Z_positive_sign. lia.
Qed.

Lemma add_zero_r (f : float) :
  is_finite f = true -> has_sign false f -> add f zero = f.
Proof.
  destruct f as [s|s| |s m e]; simpl; intros Hf Hs; try discriminate.
  - subst s. reflexivity.
  - reflexivity.
Qed.

(** X1.  [_money_value_to_float] on the SDK's [int64] fields never raises: it is
    [float(units) + float(nano) / 1e9]; a missing value is [0.0]; and a
    whole, non-negative amount ([nano = 0]) converts to exactly
    [float(units)]. *)
Theorem money_value_to_float_int64 (q : Quotation) :
  int64 (units q) -> int64 (nano q) ->
  _money_value_to_float None = Ok zero /\
  _money_value_to_float (Some q) =
  Ok (add (of_Z (units q)) (div (of_Z (nano q)) f1e9)) /\
  (0 <= units q -> nano q = 0 ->
   _money_value_to_float (Some q) = Ok (of_Z (units q))).
Proof.
  intros Hu Hn.
  assert (H : _money_value_to_float (Some q) =
              Ok (add (of_Z (units q)) (div (of_Z (nano q)) f1e9))).
  { unfold _money_value_to_float.
    rewrite (py_float_int64 _ Hu), (py_float_int64 _ Hn). reflexivity. }
  split; [reflexivity|]. split; [exact H|].
  intros Hpos H0. rewrite H, H0.
  change (div (of_Z 0) f1e9) with zero.
  destruct (of_Z_nonneg_shape _ Hpos Hu) as (f & <- & Hf & Hs).
  rewrite (add_zero_r _ Hf Hs). reflexivity.
Qed.

End MoneyValue.

Section Further.

Variable W : Type.
Variable svc : Service W.

(** ** Computations that only make remote calls *)

Lemma rpc_only_ret (A : Type) (a : A) : rpc_only (ret a : Py W A).
Proof.
  intros s. exists (Ok a), (world s), []. split; [|reflexivity].
  unfold ret. rewrite <- logged_nil. reflexivity.
Qed.

Lemma rpc_only_lift (A : Type) (r : result A) : rpc_only (lift r : Py W A).
Proof.
  intros s. exists r, (world s), []. split; [|reflexivity].
  unfold lift. rewrite <- logged_nil. reflexivity.
Qed.

Lemma rpc_only_remote (A : Type) (c : call) (f : W -> result A * W) :
  rpc_only (remote W c f).
Proof.
  intros s. unfold remote. destruct (f (world s)) as [r w].
  exists r, w, [Rpc c (raised r)]. split; reflexivity.
Qed.

Lemma rpc_only_bind (A B : Type) (m : Py W A) (k : A -> Py W B) :
  rpc_only m -> (forall a, rpc_only (k a)) -> rpc_only (bind m k).
Proof.
  intros Hm Hk s. unfold bind.
  destruct (Hm s) as (r & w & calls & -> & Hc).
  destruct r as [a|e].
  - destruct (Hk a (logged s w calls)) as (r' & w' & calls' & -> & Hc').
    exists r', w', (calls ++ calls')%list. rewrite logged_logged.
    split; [reflexivity|]. rewrite forallb_app, Hc, Hc'. reflexivity.
  - exists (Raise e), w, calls. split; [reflexivity | exact Hc].
Qed.

Lemma rpc_only_try_except (A : Type) (m : Py W A) (h : exn -> Py W A) :
  rpc_only m -> (forall e, rpc_only (h e)) -> rpc_only (try_except m h).
Proof.
  intros Hm Hh s. unfold try_except.
  destruct (Hm s) as (r & w & calls & -> & Hc).
  destruct r as [a|e].
  - exists (Ok a), w, calls. split; [reflexivity | exact Hc].
  - destruct (Hh e (logged s w calls)) as (r' & w' & calls' & -> & Hc').
    exists r', w', (calls ++ calls')%list. rewrite logged_logged.
    split; [reflexivity|]. rewrite forallb_app, Hc, Hc'. reflexivity.
Qed.

Lemma rpc_only_classify (p : PositionsSecurities) : rpc_only (classify W svc p).
Proof.
  unfold classify.
  apply rpc_only_bind.
  { apply rpc_only_try_except; [|intros; apply rpc_only_ret].
    apply rpc_only_bind; [apply rpc_only_remote | intros; apply rpc_only_ret]. }
  intros l1. apply rpc_only_bind.
  { destruct (instrument_info l1); [apply rpc_only_ret|].
    apply rpc_only_try_except; [|intros; apply rpc_only_ret].
    apply rpc_only_bind; [apply rpc_only_remote | intros; apply rpc_only_ret]. }
  intros l2. destruct (instrument_info l2); [apply rpc_only_ret|].
  apply rpc_only_try_except; [|intros; apply rpc_only_ret].
  apply rpc_only_bind; [apply rpc_only_remote | intros; apply rpc_only_ret].
Qed.

Lemma rpc_only_fetch_current_price (p : PositionsSecurities) :
  rpc_only (fetch_current_price W svc p).
Proof.
  unfold fetch_current_price.
  apply rpc_only_try_except; [|intros; apply rpc_only_ret].
  apply rpc_only_bind; [apply rpc_only_remote|].
  intros [[[|lp lps]]|]; try apply rpc_only_ret. apply rpc_only_lift.
Qed.

Lemma rpc_only_portfolio_item (p : PositionsSecurities) :
  rpc_only (portfolio_item W svc p).
Proof.
  unfold portfolio_item.
  apply rpc_only_bind; [apply rpc_only_classify|]. intros l.
  apply rpc_only_bind; [apply rpc_only_lift|]. intros q.
  apply rpc_only_bind; [apply rpc_only_fetch_current_price|]. intros cp.
  apply rpc_only_ret.
Qed.

Lemma rpc_only_for_positions (ps : list PositionsSecurities) :
  forall acc tot, rpc_only (for_positions W svc ps acc tot).
Proof.
  induction ps as [|p ps IH]; intros acc tot; simpl.
  - apply rpc_only_ret.
  - destruct (balance p <=? 0); [apply IH|].
    apply rpc_only_bind; [apply rpc_only_portfolio_item|].
    intros [item v]. apply IH.
Qed.

(** The scope of [with Client(...)] around a body that only makes remote
    calls, under a handler that only builds the failure answer. *)
Lemma scoped_run (A : Type) (token : json) (tgt : target) (body : Py W A)
    (h : exn -> A) (s : state W) :
  rpc_only body ->
  exists a w evs,
    try_except (with_Client W svc token tgt body) (fun e => ret (h e)) s =
    (Ok a, logged s w evs) /\
    ((exists e, evs = [Connect token tgt (Some e)])
     \/ (exists calls,
          evs = (Connect token tgt None :: calls ++ [Close])%list /\
          forallb is_rpc calls = true)).
Proof.
  intros Hb. unfold try_except. rewrite with_Client_run.
  destruct (client svc token tgt (world s)) as [[u|e] w1].
  - destruct (Hb (logged s w1 [Connect token tgt None])) as (r & w & calls & -> & Hc).
    rewrite !logged_logged. cbn [world logged].
    destruct r as [a|e].
    + exists a, w, (Connect token tgt None :: calls ++ [Close])%list.
      split; [reflexivity|]. right. exists calls. split; [reflexivity | exact Hc].
    + exists (h e), w, (Connect token tgt None :: calls ++ [Close])%list.
      split; [reflexivity|]. right. exists calls. split; [reflexivity | exact Hc].
  - exists (h e), w1, [Connect token tgt (Some e)].
    split; [reflexivity|]. left. exists e. reflexivity.
Qed.

Lemma operation_scope (op : operation) (s : state W) :
  exists resp w evs,
    run_operation svc op s = (Ok resp, logged s w evs) /\
    ((exists e, evs = [Connect (operation_token op) (operation_target op) (Some e)])
     \/ (exists calls,
          evs = (Connect (operation_token op) (operation_target op) None
                   :: calls ++ [Close])%list /\
          forallb is_rpc calls = true)).
Proof.
  destruct op as [token sb|token sb|token query sb|token|token figi sb];
    cbn [run_operation operation_token operation_target].
  - unfold get_portfolio. apply scoped_run.
    apply rpc_only_bind; [apply rpc_only_remote|].
    intros [[|first rest]]; cbn [accounts]; [apply rpc_only_ret|].
    cbv zeta. apply rpc_only_bind; [apply rpc_only_remote|].
    intros [secs]. cbn [securities]. apply rpc_only_bind.
    + destruct secs; [apply rpc_only_ret | apply rpc_only_for_positions].
    + intros [items total]. apply rpc_only_ret.
  - unfold get_accounts. apply scoped_run.
    apply rpc_only_bind; [apply rpc_only_remote | intros; apply rpc_only_ret].
  - unfold search_instruments. apply scoped_run.
    apply rpc_only_bind; [apply rpc_only_remote | intros; apply rpc_only_ret].
  - unfold create_demo_account. apply scoped_run.
    apply rpc_only_bind; [apply rpc_only_remote|]. intros acc. cbv zeta.
    apply rpc_only_bind; [apply rpc_only_remote | intros; apply rpc_only_ret].
  - unfold get_current_price. apply scoped_run.
    apply rpc_only_bind; [apply rpc_only_remote|].
    intros [[[|lp lps]]|]; [apply rpc_only_ret | | apply rpc_only_lift].
    apply rpc_only_bind; [apply rpc_only_lift | intros; apply rpc_only_ret].
Qed.

(** X2.  Every operation opens one connection, with the token it was given and
    to the endpoint its sandbox flag selects ([create_demo_account]: always
    the sandbox).  When the connection fails nothing else happens; when it
    opens, remote calls follow and the connection is closed exactly once, as
    the last thing the operation does, whether it succeeded or failed. *)
Theorem connection_is_scoped (op : operation) (s : state W) :
  exists resp w evs,
    run_operation svc op s = (Ok resp, logged s w evs) /\
    ((exists e, evs = [Connect (operation_token op) (operation_target op) (Some e)])
     \/ (exists calls,
          evs = (Connect (operation_token op) (operation_target op) None
                   :: calls ++ [Close])%list /\
          forallb is_rpc calls = true)).
Proof. exact (operation_scope op s). Qed.

(** ** The single-call operations *)

Lemma Forall2_map_right (A B : Type) (f : A -> B) (P : A -> B -> Prop) (l : list A) :
  (forall a, P a (f a)) -> Forall2 P l (map f l).
Proof. intros H. induction l as [|a l IH]; constructor; auto. Qed.

(** X5.  [get_accounts] succeeds exactly when the connection opened and the
    account list answered; its only remote call is the account list, and the
    response has one entry per account, in the order received, with the
    account's id, type, name and status and a null [opened_date] when the
    account has none. *)
Theorem get_accounts_lists_every_account (token : json) (use_sandbox : bool)
    (s : state W) :
  (forall w1 ar w2,
      client svc token (grpc_target use_sandbox) (world s) = (Ok tt, w1) ->
      get_accounts_rpc svc w1 = (Ok ar, w2) ->
      exists resp,
        get_accounts W svc token use_sandbox s =
        (Ok resp,
         logged s w2 [Connect token (grpc_target use_sandbox) None;
                      Rpc users_get_accounts None; Close]) /\
        field resp "success" = Some (JBool true))
  /\ (forall resp s',
        get_accounts W svc token use_sandbox s = (Ok resp, s') ->
        field resp "success" = Some (JBool true) ->
        exists w1 ar w2 items,
          client svc token (grpc_target use_sandbox) (world s) = (Ok tt, w1) /\
          get_accounts_rpc svc w1 = (Ok ar, w2) /\
          field resp "accounts" = Some (JList items) /\
          Forall2 (fun a item =>
                     field item "id" = Some (JStr (id a)) /\
                     field item "type" = Some (JStr (type a)) /\
                     field item "name" = Some (JStr (acc_name a)) /\
                     field item "status" = Some (JStr (status a)) /\
                     field item "opened_date" =
                     Some (match opened_date a with
                           | Some d => JStr d
                           | None => JNull
                           end))
                  (accounts ar) items).
Proof.
  split.
  - intros w1 ar w2 Hc Ha. eexists. unfold get_accounts, try_except.
    rewrite with_Client_run, Hc. step_py. rewrite Ha. norm_log.
    split; reflexivity.
  - intros resp s' H Hs. unfold get_accounts, try_except in H.
    rewrite with_Client_run in H.
    destruct (client svc token (grpc_target use_sandbox) (world s))
      as [[[]|e] w1] eqn:Hc.
    2:{ injection H as <- _. discriminate Hs. }
    revert H. step_py.
    destruct (get_accounts_rpc svc w1) as [[ar|e] w2] eqn:Ha; intros [= <- _];
      [|discriminate Hs].
    exists w1, ar, w2, (map account_json (accounts ar)).
    split; [reflexivity|]. split; [exact Ha|]. split; [reflexivity|].
    apply Forall2_map_right. intros a. repeat split.
Qed.

(** X6.  [search_instruments] passes the query on unchanged as the argument of
    its only remote call, and a successful response has one entry per
    instrument found, in the order received, with its figi, ticker, name,
    type and currency. *)
Theorem search_instruments_lists_every_hit (token query : json) (use_sandbox : bool)
    (s : state W) :
  (forall w1 fr w2,
      client svc token (grpc_target use_sandbox) (world s) = (Ok tt, w1) ->
      find_instrument_rpc svc query w1 = (Ok fr, w2) ->
      exists resp,
        search_instruments W svc token query use_sandbox s =
        (Ok resp,
         logged s w2 [Connect token (grpc_target use_sandbox) None;
                      Rpc (instruments_find_instrument query) None; Close]) /\
        field resp "success" = Some (JBool true))
  /\ (forall resp s',
        search_instruments W svc token query use_sandbox s = (Ok resp, s') ->
        field resp "success" = Some (JBool true) ->
        exists w1 fr w2 items,
          client svc token (grpc_target use_sandbox) (world s) = (Ok tt, w1) /\
          find_instrument_rpc svc query w1 = (Ok fr, w2) /\
          field resp "instruments" = Some (JList items) /\
          Forall2 (fun i item =>
                     field item "figi" = Some (JStr (short_figi i)) /\
                     field item "ticker" = Some (JStr (short_ticker i)) /\
                     field item "name" = Some (JStr (short_name i)) /\
                     field item "type" = Some (JStr (instrument_type i)) /\
                     field item "currency" = Some (JStr (currency i)))
                  (instruments fr) items).
Proof.
  split.
  - intros w1 fr w2 Hc Hf. eexists. unfold search_instruments, try_except.
    rewrite with_Client_run, Hc. step_py. rewrite Hf. norm_log.
    split; reflexivity.
  - intros resp s' H Hs. unfold search_instruments, try_except in H.
    rewrite with_Client_run in H.
    destruct (client svc token (grpc_target use_sandbox) (world s))
      as [[[]|e] w1] eqn:Hc.
    2:{ injection H as <- _. discriminate Hs. }
    revert H. step_py.
    destruct (find_instrument_rpc svc query w1) as [[fr|e] w2] eqn:Hf;
      intros [= <- _]; [|discriminate Hs].
    exists w1, fr, w2, (map instrument_json (instruments fr)).
    split; [reflexivity|]. split; [exact Hf|]. split; [reflexivity|].
    apply Forall2_map_right. intros a. repeat split.
Qed.

(** X7.  [get_current_price] asks for the one figi it was given.  An empty list
    of prices is reported as the failure "No price data" although nothing
    raised.  A success always names the currency "RUB" and carries the price
    of the first entry only; a first entry without a price gives the price
    0.0. *)
Theorem get_current_price_outcomes (token figi : json) (use_sandbox : bool)
    (s : state W) :
  (forall w1 w2,
      client svc token (grpc_target use_sandbox) (world s) = (Ok tt, w1) ->
      get_last_prices_rpc svc [figi] w1 = (Ok (Some {| last_prices := [] |}), w2) ->
      get_current_price W svc token figi use_sandbox s =
      (Ok (JDict [("success", JBool false); ("error", JStr "No price data")]),
       logged s w2 [Connect token (grpc_target use_sandbox) None;
                    Rpc (market_data_get_last_prices [figi]) None; Close]))
  /\ (forall w1 rest w2,
        client svc token (grpc_target use_sandbox) (world s) = (Ok tt, w1) ->
        get_last_prices_rpc svc [figi] w1 =
        (Ok (Some {| last_prices := {| price := None |} :: rest |}), w2) ->
        get_current_price W svc token figi use_sandbox s =
        (Ok (JDict [("success", JBool true); ("price", JFloat zero);
                    ("currency", JStr "RUB")]),
         logged s w2 [Connect token (grpc_target use_sandbox) None;
                      Rpc (market_data_get_last_prices [figi]) None; Close]))
  /\ (forall resp s',
        get_current_price W svc token figi use_sandbox s = (Ok resp, s') ->
        field resp "success" = Some (JBool true) ->
        exists w1 first rest w2 f,
          client svc token (grpc_target use_sandbox) (world s) = (Ok tt, w1) /\
          get_last_prices_rpc svc [figi] w1 =
          (Ok (Some {| last_prices := first :: rest |}), w2) /\
          _money_value_to_float (price first) = Ok f /\
          field resp "price" = Some (JFloat f) /\
          field resp "currency" = Some (JStr "RUB")).
Proof.
  split; [|split].
  - intros w1 w2 Hc Hp. unfold get_current_price, try_except.
    rewrite with_Client_run, Hc. step_py. rewrite Hp. norm_log. reflexivity.
  - intros w1 rest w2 Hc Hp. unfold get_current_price, try_except.
    rewrite with_Client_run, Hc. step_py. rewrite Hp.
    cbn [price _money_value_to_float]. norm_log. reflexivity.
  - intros resp s' H Hs. unfold get_current_price, try_except in H.
    rewrite with_Client_run in H.
    destruct (client svc token (grpc_target use_sandbox) (world s))
      as [[[]|e] w1] eqn:Hc.
    2:{ injection H as <- _. discriminate Hs. }
    revert H. step_py.
    destruct (get_last_prices_rpc svc [figi] w1)
      as [[[[[|first rest]]|]|e] w2] eqn:Hp;
      try (intros [= <- _]; discriminate Hs).
    destruct (_money_value_to_float (price first)) as [f|e] eqn:Hf;
      intros [= <- _]; [|discriminate Hs].
    exists w1, first, rest, w2, f.
    split; [reflexivity|]. split; [exact Hp|]. split; [exact Hf|].
    split; reflexivity.
Qed.

(** ** More on [get_portfolio] *)

Lemma classify_calls (p : PositionsSecurities) (s : state W) :
  exists l w evs,
    classify W svc p s = (Ok l, logged s w evs) /\
    Forall per_position_event evs /\
    (1 <= length evs <= 3)%nat /\
    ((exists i kind,
         l = found_locals i kind /\ (kind = "STOCK" \/ kind = "BOND" \/ kind = "ETF"))
     \/ l = other_locals p).
Proof.
  rewrite classify_run. cbv zeta.
  assert (Hev : forall c exc, per_position c = true -> per_position_event (Rpc c exc))
    by (intros c exc H; exists c, exc; auto).
  destruct (resolved (fst (share_by_rpc svc (figi p) (world s)))) as [i|].
  { eexists _, _, _. split; [reflexivity|].
    split; [repeat constructor; apply Hev; reflexivity|].
    split; [simpl; lia|]. left. exists i, "STOCK". auto. }
  destruct (resolved (fst (bond_by_rpc svc (figi p) _))) as [i|].
  { eexists _, _, _. split; [reflexivity|].
    split; [repeat constructor; apply Hev; reflexivity|].
    split; [simpl; lia|]. left. exists i, "BOND". auto. }
  destruct (resolved (fst (etf_by_rpc svc (figi p) _))) as [i|].
  { eexists _, _, _. split; [reflexivity|].
    split; [repeat constructor; apply Hev; reflexivity|].
    split; [simpl; lia|]. left. exists i, "ETF". auto. }
  eexists _, _, _. split; [reflexivity|].
  split; [repeat constructor; apply Hev; reflexivity|].
  split; [simpl; lia|]. right. reflexivity.
Qed.

Lemma portfolio_item_calls (p : PositionsSecurities) (s : state W) :
  exists r w evs,
    portfolio_item W svc p s = (r, logged s w evs) /\
    Forall per_position_event evs /\
    (length evs <= 4)%nat /\
    (forall x, r = Ok x -> (2 <= length evs)%nat).
Proof.
  destruct (classify_calls p s) as (l & w & evs & Hc & Hevs & Hlen & _).
  rewrite (portfolio_item_run W svc p s _ l Hc).
  destruct (py_float (balance p)) as [q|e].
  - cbv zeta. eexists _, _, (evs ++ [_])%list. rewrite logged_logged.
    split; [reflexivity|]. split.
    + apply Forall_app. split; [assumption|]. repeat constructor.
      eexists _, _. split; reflexivity.
    + rewrite length_app. simpl. split; [lia|]. intros; lia.
  - eexists _, _, evs. split; [reflexivity|]. split; [assumption|].
    split; [lia|]. intros x Hx. discriminate Hx.
Qed.

Lemma for_positions_calls (ps : list PositionsSecurities) :
  forall (acc : list json) (tot : float) (s : state W),
    exists r w evs,
      for_positions W svc ps acc tot s = (r, logged s w evs) /\
      Forall per_position_event evs /\
      (length evs <= 4 * length (kept ps))%nat /\
      (forall x, r = Ok x -> (2 * length (kept ps) <= length evs)%nat).
Proof.
  induction ps as [|p ps IH]; intros acc tot s; simpl.
  - eexists _, _, []. unfold ret. rewrite <- logged_nil.
    split; [reflexivity|]. split; [constructor|]. simpl. split; [lia|]. intros; lia.
  - unfold kept. simpl. destruct (Z.leb_spec (balance p) 0) as [Hle|Hgt].
    + replace (0 <? balance p) with false by (symmetry; apply Z.ltb_ge; lia).
      apply IH.
    + replace (0 <? balance p) with true by (symmetry; apply Z.ltb_lt; lia).
      unfold bind.
      destruct (portfolio_item_calls p s) as (r & w & evs & -> & Hevs & Hle4 & Hge2).
      destruct r as [[item v]|e].
      * destruct (IH (acc ++ [item])%list (add tot v) (logged s w evs))
          as (r' & w' & evs' & -> & Hevs' & Hle' & Hge').
        eexists _, _, _. rewrite logged_logged. split; [reflexivity|].
        split; [apply Forall_app; split; assumption|].
        rewrite length_app. fold (kept ps). simpl length.
        specialize (Hge2 _ eq_refl). split; [lia|].
        intros x Hx. specialize (Hge' x Hx). lia.
      * eexists _, _, _. split; [reflexivity|]. split; [assumption|].
        simpl length. split; [lia|]. intros x Hx. discriminate Hx.
Qed.

(** X8.  [get_portfolio] works on the first account the remote side lists and on
    no other: the positions are requested for its id, every later remote
    call is a per-position lookup, and a successful response carries that id
    as [account_id]. *)
Theorem get_portfolio_first_account (token : json) (use_sandbox : bool) (s : state W)
    (w1 w2 : W) (first : Account) (rest : list Account) :
  client svc token (grpc_target use_sandbox) (world s) = (Ok tt, w1) ->
  get_accounts_rpc svc w1 = (Ok {| accounts := first :: rest |}, w2) ->
  exists resp w exc calls,
    get_portfolio W svc token use_sandbox s =
    (Ok resp,
     logged s w
       (Connect token (grpc_target use_sandbox) None
          :: Rpc users_get_accounts None
          :: Rpc (operations_get_positions (id first)) exc
          :: calls ++ [Close])%list) /\
    Forall per_position_event calls /\
    (field resp "success" = Some (JBool true) ->
     field resp "account_id" = Some (JStr (id first))).
Proof.
  intros Hc Ha.
  destruct (get_positions_rpc svc (id first) w2) as [[[secs]|e] w3] eqn:Hp.
  - rewrite (get_portfolio_account W svc _ _ _ _ _ _ _ _ _ Hc Ha Hp).
    destruct (for_positions_calls secs [] zero
                (logged s w3 [Connect token (grpc_target use_sandbox) None;
                              Rpc users_get_accounts None;
                              Rpc (operations_get_positions (id first)) None]))
      as (r & w & evs & -> & Hevs & _).
    rewrite !logged_logged. cbn [world logged].
    destruct r as [[items total]|e].
    + eexists _, w, None, evs. split; [reflexivity|]. split; [exact Hevs|].
      reflexivity.
    + eexists _, w, None, evs. split; [reflexivity|]. split; [exact Hevs|].
      intros H. discriminate H.
  - exists (failure e), w3, (Some e), []. split; [|split; [constructor|]].
    + unfold get_portfolio, try_except. rewrite with_Client_run, Hc.
      step_py. rewrite Ha. cbn [accounts raised world log]. rewrite Hp. cbn.
      rewrite <- !app_assoc. reflexivity.
    + intros H. discriminate H.
Qed.

(** X9.  The remote calls of [get_portfolio] for an account: the account list,
    the positions, and for each position with a positive balance between two
    and four per-position calls (one to three lookups and the price); a
    position that is not held costs no call.  So a run makes at most
    [2 + 4n] remote calls for [n] held positions, and a successful one at
    least [2 + 2n]. *)
Theorem get_portfolio_call_budget (token : json) (use_sandbox : bool) (s : state W)
    (w1 w2 w3 : W) (first : Account) (rest : list Account)
    (secs : list PositionsSecurities) :
  client svc token (grpc_target use_sandbox) (world s) = (Ok tt, w1) ->
  get_accounts_rpc svc w1 = (Ok {| accounts := first :: rest |}, w2) ->
  get_positions_rpc svc (id first) w2 = (Ok {| securities := secs |}, w3) ->
  exists resp w calls,
    get_portfolio W svc token use_sandbox s =
    (Ok resp,
     logged s w
       (Connect token (grpc_target use_sandbox) None
          :: Rpc users_get_accounts None
          :: Rpc (operations_get_positions (id first)) None
          :: calls ++ [Close])%list) /\
    Forall per_position_event calls /\
    (length calls <= 4 * length (kept secs))%nat /\
    (field resp "success" = Some (JBool true) ->
     (2 * length (kept secs) <= length calls)%nat).
Proof.
  intros Hc Ha Hp.
  rewrite (get_portfolio_account W svc _ _ _ _ _ _ _ _ _ Hc Ha Hp).
  destruct (for_positions_calls secs [] zero
              (logged s w3 [Connect token (grpc_target use_sandbox) None;
                            Rpc users_get_accounts None;
                            Rpc (operations_get_positions (id first)) None]))
    as (r & w & evs & -> & Hevs & Hle & Hge).
  rewrite !logged_logged. cbn [world logged].
  destruct r as [[items total]|e].
  - eexists _, w, evs. split; [reflexivity|]. split; [exact Hevs|].
    split; [exact Hle|]. intros _. exact (Hge _ eq_refl).
  - eexists _, w, evs. split; [reflexivity|]. split; [exact Hevs|].
    split; [exact Hle|]. intros H. discriminate H.
Qed.

(** X12.  A position's price is reported as 0.0, and its value with it, also when
    the last-price call answers without a price: with null, with an empty
    list, or with a first entry that has no price.  The item is built all the
    same. *)
Theorem missing_price_is_zero (p : PositionsSecurities) (s s1 : state W) (l : locals)
    (r : option GetLastPricesResponse) (w2 : W) :
  0 < balance p ->
  int64 (balance p) ->
  classify W svc p s = (Ok l, s1) ->
  get_last_prices_rpc svc [JStr (figi p)] (world s1) = (Ok r, w2) ->
  no_price r ->
  exists item,
    portfolio_item W svc p s =
    (Ok (item, zero),
     logged s1 w2 [Rpc (market_data_get_last_prices [JStr (figi p)]) None]) /\
    field item "figi" = Some (JStr (figi p)) /\
    field item "quantity" = Some (JFloat (of_Z (balance p))) /\
    field item "current_price" = Some (JFloat zero) /\
    field item "current_value" = Some (JFloat zero).
Proof.
  intros Hpos H64 Hc Hr Hno.
  rewrite (portfolio_item_run W svc p s _ l Hc), (py_float_int64 _ H64). cbv zeta.
  rewrite Hr. cbn [fst snd raised].
  assert (Hq : quoted_price (Ok r) = zero).
  { destruct Hno as [->|[->|(rest & ->)]]; reflexivity. }
  rewrite Hq. unfold item_json.
  rewrite (mul_quantity_zero _ _ Hpos (py_float_int64 _ H64)).
  eexists. split; [reflexivity|]. repeat split.
Qed.

(** ** The shape of what is returned *)

Lemma returns_ret (A : Type) (P : A -> Prop) (a : A) :
  P a -> returns P (ret a : Py W A).
Proof. intros H s a' s' [= <- _]. exact H. Qed.

Lemma returns_lift_raise (A : Type) (P : A -> Prop) (e : exn) :
  returns P (lift (Raise e) : Py W A).
Proof. intros s a s' H. discriminate H. Qed.

Lemma returns_bind (A B : Type) (P : B -> Prop) (m : Py W A) (k : A -> Py W B) :
  (forall a, returns P (k a)) -> returns P (bind m k).
Proof.
  intros Hk s b s'. unfold bind. destruct (m s) as [[a|e] s1]; [|discriminate].
  apply Hk.
Qed.

Lemma returns_try_except (A : Type) (P : A -> Prop) (m : Py W A) (h : exn -> Py W A) :
  returns P m -> (forall e, returns P (h e)) -> returns P (try_except m h).
Proof.
  intros Hm Hh s a s'. unfold try_except.
  destruct (m s) as [[a'|e] s1] eqn:E.
  - intros [= <- _]. exact (Hm _ _ _ E).
  - apply Hh.
Qed.

Lemma returns_with_Client (A : Type) (P : A -> Prop) (token : json) (tgt : target)
    (body : Py W A) :
  returns P body -> returns P (with_Client W svc token tgt body).
Proof.
  intros Hb s a s'. rewrite with_Client_run.
  destruct (client svc token tgt (world s)) as [[u|e] w1]; [|discriminate].
  destruct (body _) as [r s2] eqn:E. intros [= -> _]. exact (Hb _ _ _ E).
Qed.

Lemma tagged_success (rest : list (string * json)) :
  dict_get rest "error" = None -> tagged (JDict (("success", JBool true) :: rest)).
Proof.
  intros H. exists true. split; [reflexivity|].
  unfold has_key, field. cbn. rewrite H. reflexivity.
Qed.

(** X10.  Whatever an operation returns is a dictionary with a boolean [success]
    and with an [error] key exactly when [success] is false: a success never
    carries an error, a failure always does. *)
Theorem response_is_tagged (op : operation) (s s' : state W) (resp : json) :
  run_operation svc op s = (Ok resp, s') ->
  exists b,
    field resp "success" = Some (JBool b) /\
    has_key resp "error" = negb b.
Proof.
  revert s resp s'. change (returns tagged (run_operation svc op)).
  assert (Hfail : forall (d : list (string * json)) e,
             tagged (JDict (("success", JBool false) :: d ++ [("error", JStr (str e))]))).
  { intros d e. exists false. split; [reflexivity|].
    unfold has_key, field. cbn [dict_get String.eqb Ascii.eqb Bool.eqb].
    induction d as [|[k v] d IH]; [reflexivity|].
    cbn [app dict_get]. destruct (String.eqb k "error"); [reflexivity | exact IH]. }
  destruct op as [token sb|token sb|token query sb|token|token figi sb];
    cbn [run_operation].
  - unfold get_portfolio. apply returns_try_except.
    2:{ intros e. apply returns_ret. exact (Hfail [] e). }
    apply returns_with_Client, returns_bind.
    intros [[|first rest]]; cbn [accounts].
    { apply returns_ret. apply tagged_success. reflexivity. }
    cbv zeta. apply returns_bind. intros pr. apply returns_bind.
    intros [items total]. apply returns_ret. apply tagged_success. reflexivity.
  - unfold get_accounts. apply returns_try_except.
    2:{ intros e. apply returns_ret. exact (Hfail [("accounts", JList [])] e). }
    apply returns_with_Client, returns_bind. intros ar.
    apply returns_ret. apply tagged_success. reflexivity.
  - unfold search_instruments. apply returns_try_except.
    2:{ intros e. apply returns_ret. exact (Hfail [("instruments", JList [])] e). }
    apply returns_with_Client, returns_bind. intros fr.
    apply returns_ret. apply tagged_success. reflexivity.
  - unfold create_demo_account. apply returns_try_except.
    2:{ intros e. apply returns_ret. exact (Hfail [] e). }
    apply returns_with_Client, returns_bind. intros acc. cbv zeta.
    apply returns_bind. intros paid.
    apply returns_ret. apply tagged_success. reflexivity.
  - unfold get_current_price. apply returns_try_except.
    2:{ intros e. apply returns_ret. exact (Hfail [] e). }
    apply returns_with_Client, returns_bind.
    intros [[[|lp lps]]|].
    + apply returns_ret. exact (Hfail [] (PyExc "" "No price data")).
    + apply returns_bind. intros f.
      apply returns_ret. apply tagged_success. reflexivity.
    + apply returns_lift_raise.
Qed.

Lemma produced_item_well_formed (p : PositionsSecurities) (item : json) :
  produces svc p item ->
  exists t q cp,
    field item "type" = Some (JStr t) /\ item_type t /\
    field item "quantity" = Some (JFloat q) /\ is_finite q = true /\
    field item "current_price" = Some (JFloat cp) /\
    field item "current_value" = Some (JFloat (mul q cp)) /\
    (t = "OTHER" ->
     field item "name" = Some (JStr "Unknown") /\
     field item "ticker" = field item "figi").
Proof.
  intros (s0 & s2 & H).
  destruct (classify_calls p s0) as (l & w & evs & Hc & _ & _ & Hl).
  rewrite (portfolio_item_run W svc p s0 _ l Hc) in H.
  destruct (py_float (balance p)) as [q|e] eqn:Hq; [|discriminate].
  cbv zeta in H. injection H as <- _ _.
  apply py_float_inv in Hq as [-> Hfin].
  destruct Hl as [(i & kind & -> & Hkind)| ->].
  - eexists kind, (of_Z (balance p)), _.
    split; [reflexivity|]. split; [unfold item_type; tauto|].
    split; [reflexivity|]. split; [exact Hfin|].
    split; [reflexivity|]. split; [reflexivity|].
    intros H. destruct Hkind as [-> | [-> | ->]]; discriminate H.
  - eexists "OTHER", (of_Z (balance p)), _.
    split; [reflexivity|]. split; [unfold item_type; tauto|].
    split; [reflexivity|]. split; [exact Hfin|].
    split; [reflexivity|]. split; [reflexivity|].
    intros _. split; reflexivity.
Qed.

(** X11.  Every item of a successful [get_portfolio] response has one of the four
    types STOCK, BOND, ETF and OTHER, a finite quantity, and a
    [current_value] that is its quantity times its [current_price]; an item
    of type OTHER has the name "Unknown" and its figi as ticker. *)
Theorem portfolio_items_well_formed (token : json) (use_sandbox : bool)
    (s s' : state W) (resp : json) :
  get_portfolio W svc token use_sandbox s = (Ok resp, s') ->
  field resp "success" = Some (JBool true) ->
  exists items,
    field resp "portfolio" = Some (JList items) /\
    Forall (fun item =>
              exists t q cp,
                field item "type" = Some (JStr t) /\ item_type t /\
                field item "quantity" = Some (JFloat q) /\ is_finite q = true /\
                field item "current_price" = Some (JFloat cp) /\
                field item "current_value" = Some (JFloat (mul q cp)) /\
                (t = "OTHER" ->
                 field item "name" = Some (JStr "Unknown") /\
                 field item "ticker" = field item "figi")) items.
Proof.
  intros Hrun Hs.
  destruct (get_portfolio_cases W svc token use_sandbox s)
    as [(e & w & H)|[(e & w & H)|[(w & H)|[(first & e & w & H)|
        (first & secs & w & r & s2 & Hl & H)]]]];
    rewrite H in Hrun; injection Hrun as <- _; try discriminate Hs.
  - exists []. split; [reflexivity | constructor].
  - destruct r as [[items total]|e]; [|discriminate Hs].
    apply for_positions_inv in Hl as (new & -> & Hnew & _).
    exists new. split; [reflexivity|].
    clear Hs H. induction Hnew as [|p item ps items Hp _ IH]; constructor; [|exact IH].
    exact (produced_item_well_formed p item Hp).
Qed.

Lemma for_positions_none_held (ps : list PositionsSecurities) :
  Forall (fun p => balance p <= 0) ps ->
  forall (acc : list json) (tot : float) (s : state W),
    for_positions W svc ps acc tot s = (Ok (acc, tot), s).
Proof.
  induction 1 as [|p ps Hp _ IH]; intros acc tot s; simpl; [reflexivity|].
  replace (balance p <=? 0) with true by (symmetry; apply Z.leb_le; exact Hp).
  apply IH.
Qed.

(** X13.  An account none of whose positions has a positive balance (or that has
    no position at all) gives a success with its [account_id], an empty
    portfolio and the float total 0.0, after exactly two remote calls: the
    account list and the positions. *)
Theorem get_portfolio_nothing_held (token : json) (use_sandbox : bool) (s : state W)
    (w1 w2 w3 : W) (first : Account) (rest : list Account)
    (secs : list PositionsSecurities) :
  client svc token (grpc_target use_sandbox) (world s) = (Ok tt, w1) ->
  get_accounts_rpc svc w1 = (Ok {| accounts := first :: rest |}, w2) ->
  get_positions_rpc svc (id first) w2 = (Ok {| securities := secs |}, w3) ->
  Forall (fun p => balance p <= 0) secs ->
  get_portfolio W svc token use_sandbox s =
  (Ok (JDict [("success", JBool true);
              ("account_id", JStr (id first));
              ("portfolio", JList []);
              ("total_value", JFloat zero);
              ("total_cost", JFloat zero);
              ("total_pnl", JFloat zero);
              ("total_pnl_percent", JFloat zero)]),
   logged s w3 [Connect token (grpc_target use_sandbox) None;
                Rpc users_get_accounts None;
                Rpc (operations_get_positions (id first)) None;
                Close]).
Proof.
  intros Hc Ha Hp Hnone.
  rewrite (get_portfolio_account W svc _ _ _ _ _ _ _ _ _ Hc Ha Hp).
  rewrite (for_positions_none_held secs Hnone). rewrite logged_logged. reflexivity.
Qed.

End Further.

Section FurtherMain.

Variable W : Type.
Variable svc : Service W.
Variable json_loads : string -> result json.

(** ** What [main] passes on *)

Lemma main_dict_payload (prog command : string) (rest : list string) (raw : string)
    (d : list (string * json)) (s : state W) :
  raw <> "" ->
  json_loads raw = Ok (JDict d) ->
  main W svc json_loads (prog :: command :: rest) (Ok raw) s =
  let token := get_or d "token" JNull in
  let use_sandbox := py_bool (get_or d "use_sandbox" (JBool false)) in
  if String.eqb command "get_portfolio" then
    get_portfolio W svc token use_sandbox s
  else if String.eqb command "get_accounts" then
    get_accounts W svc token use_sandbox s
  else if String.eqb command "search_instruments" then
    search_instruments W svc token (get_or d "query" (JStr "")) use_sandbox s
  else if String.eqb command "create_demo_account" then
    create_demo_account W svc token s
  else if String.eqb command "get_current_price" then
    get_current_price W svc token (get_or d "figi" (JStr "")) use_sandbox s
  else (Ok (unknown_command command), s).
Proof.
  intros Hne Hd. unfold main; cbn [bind lift].
  destruct (String.eqb_spec raw "") as [->|_]; [contradiction|].
  rewrite Hd. unfold bind, lift, py_get, get_or. cbv zeta.
  repeat match goal with
         | |- context [String.eqb command ?c] => destruct (String.eqb command c)
         end; reflexivity.
Qed.

(** X3.  For a request that is a JSON object and a supported command, [main]
    connects with the request's [token] as it stands ([None] when absent)
    and selects the sandbox endpoint exactly when [use_sandbox] is truthy in
    Python's sense, whatever its JSON type; [create_demo_account] ignores
    the flag and always uses the sandbox. *)
Theorem main_forwards_token_and_flag (prog command : string) (rest : list string)
    (raw : string) (d : list (string * json)) (s : state W) :
  raw <> "" ->
  json_loads raw = Ok (JDict d) ->
  supported_command command = true ->
  exists resp w exc evs,
    main W svc json_loads (prog :: command :: rest) (Ok raw) s =
    (Ok resp,
     logged s w (Connect (get_or d "token" JNull) (command_target command d) exc :: evs)).
Proof.
  intros Hne Hd Hc. rewrite (main_dict_payload _ _ _ _ _ _ Hne Hd). cbv zeta.
  assert (Hop : forall op,
             operation_token op = get_or d "token" JNull ->
             operation_target op = command_target command d ->
             exists resp w exc evs,
               run_operation svc op s =
               (Ok resp,
                logged s w
                  (Connect (get_or d "token" JNull) (command_target command d) exc
                     :: evs))).
  { intros op <- <-.
    destruct (operation_scope W svc op s) as (resp & w & evs & -> & [(e & ->)|(calls & -> & _)]);
      eexists _, _, _, _; reflexivity. }
  unfold supported_command in Hc. unfold command_target in Hop |- *.
  destruct (String.eqb_spec command "get_portfolio") as [->|_].
  { apply (Hop (op_get_portfolio _ _)); reflexivity. }
  destruct (String.eqb_spec command "get_accounts") as [->|_].
  { apply (Hop (op_get_accounts _ _)); reflexivity. }
  destruct (String.eqb_spec command "search_instruments") as [->|_].
  { apply (Hop (op_search_instruments _ _ _)); reflexivity. }
  destruct (String.eqb_spec command "create_demo_account") as [->|_].
  { apply (Hop (op_create_demo_account _)); reflexivity. }
  destruct (String.eqb_spec command "get_current_price") as [->|_].
  { apply (Hop (op_get_current_price _ _ _)); reflexivity. }
  discriminate Hc.
Qed.

(** X4.  Without a command [main] answers "Command is required" whatever is on
    standard input; with an unknown command and a request that is empty,
    rejected by [json.loads] or a JSON object, it answers "Unknown command:
    <name>".  In both cases no connection is opened and no remote call is
    made. *)
Theorem main_answers_without_service (raw : string) (s : state W) :
  (forall argv stdin,
      (length argv < 2)%nat ->
      main W svc json_loads argv stdin s =
      (Ok (JDict [("success", JBool false); ("error", JStr "Command is required")]), s))
  /\ (forall prog command rest,
        supported_command command = false ->
        raw = "" \/ (exists e, json_loads raw = Raise e)
        \/ (exists d, json_loads raw = Ok (JDict d)) ->
        main W svc json_loads (prog :: command :: rest) (Ok raw) s =
        (Ok (JDict [("success", JBool false);
                    ("error", JStr (String.append "Unknown command: " command))]), s)).
Proof.
  split.
  - intros [|prog [|command rest]] stdin Hlen; [reflexivity | reflexivity |].
    simpl in Hlen. lia.
  - intros prog command rest Hc Hraw.
    exact (main_unknown_command W svc json_loads prog command rest raw s Hc Hraw).
Qed.

(** X14.  For a request that is a JSON object, [search_instruments] sends the
    request's [query] and [get_current_price] asks for the request's [figi],
    each as it stands in the request whatever its JSON type, and as the empty
    string when the key is absent. *)
Theorem main_forwards_query_and_figi (prog : string) (rest : list string)
    (raw : string) (d : list (string * json)) (s : state W) :
  raw <> "" ->
  json_loads raw = Ok (JDict d) ->
  (forall w1,
      client svc (get_or d "token" JNull) (command_target "search_instruments" d)
        (world s) = (Ok tt, w1) ->
      exists resp w exc,
        main W svc json_loads (prog :: "search_instruments" :: rest) (Ok raw) s =
        (Ok resp,
         logged s w
           [Connect (get_or d "token" JNull) (command_target "search_instruments" d) None;
            Rpc (instruments_find_instrument (get_or d "query" (JStr ""))) exc;
            Close]))
  /\ (forall w1,
        client svc (get_or d "token" JNull) (command_target "get_current_price" d)
          (world s) = (Ok tt, w1) ->
        exists resp w exc,
          main W svc json_loads (prog :: "get_current_price" :: rest) (Ok raw) s =
          (Ok resp,
           logged s w
             [Connect (get_or d "token" JNull) (command_target "get_current_price" d)
                None;
              Rpc (market_data_get_last_prices [get_or d "figi" (JStr "")]) exc;
              Close])).
Proof.
  intros Hne Hd. split; intros w1 Hc.
  - rewrite (main_dict_payload _ _ _ _ _ _ Hne Hd). cbv zeta.
    cbn [String.eqb Ascii.eqb Bool.eqb].
    change (command_target "search_instruments" d)
      with (grpc_target (py_bool (get_or d "use_sandbox" (JBool false)))) in Hc |- *.
    unfold search_instruments, try_except. rewrite with_Client_run, Hc. step_py.
    destruct (find_instrument_rpc svc _ w1) as [[fr|e] w2]; norm_log;
      eexists _, _, _; reflexivity.
  - rewrite (main_dict_payload _ _ _ _ _ _ Hne Hd). cbv zeta.
    cbn [String.eqb Ascii.eqb Bool.eqb].
    change (command_target "get_current_price" d)
      with (grpc_target (py_bool (get_or d "use_sandbox" (JBool false)))) in Hc |- *.
    unfold get_current_price, try_except. rewrite with_Client_run, Hc. step_py.
    destruct (get_last_prices_rpc svc _ w1) as [[[[[|lp lps]]|]|e] w2];
      cbn [raised]; try (norm_log; eexists _, _, _; reflexivity).
    destruct (_money_value_to_float (price lp)); norm_log;
      eexists _, _, _; reflexivity.
Qed.

End FurtherMain.

(** ** Concrete runs of the further properties *)

Module FurtherRuns.

Import Script Requests.

Lemma money_value_to_float_int64_witness :
  _money_value_to_float (Some {| units := 250; nano := 0 |}) = Ok (of_Z 250).
Proof.
  assert (Hu : int64 250) by (split; [intros H; discriminate H | reflexivity]).
  assert (Hn : int64 0) by (split; [intros H; discriminate H | reflexivity]).
  destruct (money_value_to_float_int64 {| units := 250; nano := 0 |} Hu Hn)
    as (_ & _ & Hwhole).
  apply Hwhole; [intros H; discriminate H | reflexivity].
Defined.

Lemma main_forwards_token_and_flag_witness :
  exists resp w exc evs,
    main nat (service broker) loads ["tinkoff_service.py"; "get_accounts"]
      (Ok flagged_text) start =
    (Ok resp,
     logged start w (Connect (JStr "t.0123456789") INVEST_GRPC_API_SANDBOX exc :: evs)).
Proof.
  assert (Hne : flagged_text <> "") by (intros H; discriminate H).
  exact (main_forwards_token_and_flag nat (service broker) loads
           "tinkoff_service.py" "get_accounts" [] flagged_text flagged start
           Hne eq_refl eq_refl).
Defined.

Lemma main_answers_without_service_witness :
  main nat (service broker) loads ["tinkoff_service.py"] (Ok "[]") start =
  (Ok (JDict [("success", JBool false); ("error", JStr "Command is required")]), start)
  /\ main nat (service broker) loads ["tinkoff_service.py"; "get_orders"]
       (Ok flagged_text) start =
     (Ok (JDict [("success", JBool false);
                 ("error", JStr "Unknown command: get_orders")]), start).
Proof.
  split.
  - destruct (main_answers_without_service nat (service broker) loads "[]" start)
      as [Hnone _].
    apply Hnone. simpl. lia.
  - destruct (main_answers_without_service nat (service broker) loads flagged_text start)
      as [_ Hunknown].
    apply (Hunknown "tinkoff_service.py" "get_orders" []); [reflexivity|].
    right. right. exists flagged. reflexivity.
Defined.

Lemma get_accounts_lists_every_account_witness :
  exists resp items,
    get_accounts nat (service broker) token false start =
    (Ok resp,
     logged start 2%nat
       [Connect token INVEST_GRPC_API None; Rpc users_get_accounts None; Close]) /\
    field resp "success" = Some (JBool true) /\
    field resp "accounts" = Some (JList items) /\
    map (fun item => field item "id") items = [Some (JStr "2000123")].
Proof.
  destruct (get_accounts_lists_every_account nat (service broker) token false start)
    as [Hrun Hinv].
  destruct (Hrun 1%nat {| accounts := [main_account] |} 2%nat eq_refl eq_refl)
    as (resp & Hr & Hs).
  destruct (Hinv resp _ Hr Hs) as (w1 & ar & w2 & items & _ & Ha & Hi & Hall).
  injection Ha as <- _.
  exists resp, items. split; [exact Hr|]. split; [exact Hs|]. split; [exact Hi|].
  cbn [accounts] in Hall.
  inversion Hall as [|a i l l' (Hid & _) Hrest]; subst.
  inversion Hrest; subst. cbn [map]. rewrite Hid. reflexivity.
Defined.

Lemma search_instruments_lists_every_hit_witness :
  exists resp items,
    search_instruments nat (service idle) token (JStr "SBER") true start =
    (Ok resp,
     logged start 2%nat
       [Connect token INVEST_GRPC_API_SANDBOX None;
        Rpc (instruments_find_instrument (JStr "SBER")) None; Close]) /\
    field resp "instruments" = Some (JList items) /\
    map (fun item => field item "ticker") items =
    [Some (JStr "SBER"); Some (JStr "SBERP")].
Proof.
  destruct (search_instruments_lists_every_hit nat (service idle) token (JStr "SBER")
              true start) as [Hrun Hinv].
  destruct (Hrun 1%nat _ 2%nat eq_refl eq_refl) as (resp & Hr & Hs).
  destruct (Hinv resp _ Hr Hs) as (w1 & fr & w2 & items & _ & Hf & Hi & Hall).
  injection Hf as <- _.
  exists resp, items. split; [exact Hr|]. split; [exact Hi|].
  cbn [instruments] in Hall.
  inversion Hall as [|a1 i1 l1 l1' (_ & Ht1 & _) Hrest1]; subst.
  inversion Hrest1 as [|a2 i2 l2 l2' (_ & Ht2 & _) Hrest2]; subst.
  inversion Hrest2; subst. cbn [map]. rewrite Ht1, Ht2. reflexivity.
Defined.

Lemma get_current_price_outcomes_witness :
  get_current_price nat (service idle) token (JStr "BBG004730N88") false start =
  (Ok (JDict [("success", JBool false); ("error", JStr "No price data")]),
   logged start 2%nat
     [Connect token INVEST_GRPC_API None;
      Rpc (market_data_get_last_prices [JStr "BBG004730N88"]) None; Close])
  /\ field (response_of (get_current_price nat (service broker) token
                           (JStr "BBG004730N88") false start))
       "currency" = Some (JStr "RUB").
Proof.
  split.
  - destruct (get_current_price_outcomes nat (service idle) token (JStr "BBG004730N88")
                false start) as (Hempty & _ & _).
    apply (Hempty 1%nat 2%nat); reflexivity.
  - destruct (get_current_price_outcomes nat (service broker) token (JStr "BBG004730N88")
                false start) as (_ & _ & Hok).
    destruct (get_current_price nat (service broker) token (JStr "BBG004730N88")
                false start) as [r s'] eqn:Hrun.
    assert (Hr : exists resp, r = Ok resp /\ field resp "success" = Some (JBool true)).
    { vm_compute in Hrun. injection Hrun as <- _. eexists. split; reflexivity. }
    destruct Hr as (resp & -> & Hs).
    destruct (Hok resp s' eq_refl Hs) as (_ & _ & _ & _ & _ & _ & _ & _ & _ & Hcur).
    exact Hcur.
Defined.

Lemma get_portfolio_first_account_witness :
  exists resp w exc calls,
    get_portfolio nat (service broker) token false start =
    (Ok resp,
     logged start w
       (Connect token INVEST_GRPC_API None
          :: Rpc users_get_accounts None
          :: Rpc (operations_get_positions "2000123") exc
          :: calls ++ [Close])%list) /\
    Forall per_position_event calls.
Proof.
  destruct (get_portfolio_first_account nat (service broker) token false start
              1%nat 2%nat main_account [] eq_refl eq_refl)
    as (resp & w & exc & calls & Hrun & Hcalls & _).
  exists resp, w, exc, calls. split; assumption.
Defined.

Lemma get_portfolio_call_budget_witness :
  exists calls,
    rpcs (log (snd (get_portfolio nat (service broker) token false start))) =
    (users_get_accounts :: operations_get_positions "2000123" :: rpcs calls)%list /\
    (8 <= length calls <= 16)%nat.
Proof.
  destruct (get_portfolio_call_budget nat (service broker) token false start
              1%nat 2%nat 3%nat main_account [] holdings eq_refl eq_refl eq_refl)
    as (resp & w & calls & Hrun & Hcalls & Hle & Hge).
  exists calls. rewrite Hrun. cbn [snd log logged start app rpcs].
  split.
  - f_equal. f_equal. clear Hrun Hle Hge.
    induction Hcalls as [|ev evs (c & exc & -> & _) _ IH]; [reflexivity|].
    cbn [app rpcs]. f_equal. exact IH.
  - change (length (kept holdings)) with 4%nat in Hle, Hge. split; [|exact Hle].
    apply Hge. revert Hrun. vm_compute. intros [= <- _]. reflexivity.
Defined.

Lemma response_is_tagged_witness :
  field (response_of (get_current_price nat (service idle) token (JStr "BBG004730N88")
                        false start)) "success" = Some (JBool false)
  /\ has_key (response_of (get_current_price nat (service idle) token
                             (JStr "BBG004730N88") false start)) "error" = true.
Proof.
  destruct (get_current_price nat (service idle) token (JStr "BBG004730N88") false start)
    as [r s'] eqn:Hrun.
  assert (Hr : exists resp, r = Ok resp /\ field resp "success" = Some (JBool false)).
  { vm_compute in Hrun. injection Hrun as <- _. eexists. split; reflexivity. }
  destruct Hr as (resp & -> & Hs).
  destruct (response_is_tagged nat (service idle)
              (op_get_current_price token (JStr "BBG004730N88") false) start s' resp Hrun)
    as (b & Hb & Herr).
  unfold response_of. cbn [fst]. split; [exact Hs|].
  rewrite Hs in Hb. injection Hb as <-. exact Herr.
Defined.

Lemma portfolio_items_well_formed_witness :
  exists items,
    field (response_of (get_portfolio nat (service broker) token false start))
      "portfolio" = Some (JList items) /\
    length items = 4%nat /\
    Forall (fun item =>
              exists t, field item "type" = Some (JStr t) /\ item_type t) items.
Proof.
  destruct (get_portfolio nat (service broker) token false start) as [r s'] eqn:Hrun.
  assert (Hr : exists resp, r = Ok resp /\ field resp "success" = Some (JBool true)
                            /\ exists items, field resp "portfolio" = Some (JList items)
                                             /\ length items = 4%nat).
  { vm_compute in Hrun. injection Hrun as <- _.
    eexists. split; [reflexivity|]. split; [reflexivity|].
    eexists. split; reflexivity. }
  destruct Hr as (resp & -> & Hs & items0 & Hp0 & Hlen).
  destruct (portfolio_items_well_formed nat (service broker) token false start s' resp
              Hrun Hs) as (items & Hp & Hall).
  exists items. unfold response_of. cbn [fst]. split; [exact Hp|].
  split; [rewrite Hp in Hp0; injection Hp0 as ->; exact Hlen|].
  revert Hall. apply Forall_impl. intros item (t & q & cp & Ht & Hty & _).
  exists t. split; assumption.
Defined.

Lemma missing_price_is_zero_witness :
  exists item s',
    portfolio_item nat (service broker) unlisted start = (Ok (item, zero), s') /\
    field item "type" = Some (JStr "OTHER") /\
    field item "current_price" = Some (JFloat zero) /\
    field item "current_value" = Some (JFloat zero).
Proof.
  assert (H64 : int64 (balance unlisted))
    by (split; [intros H; discriminate H | reflexivity]).
  assert (Hc : classify nat (service broker) unlisted start =
               (Ok (other_locals unlisted),
                logged start 3%nat
                  [Rpc (instruments_share_by "BBG000000001")
                     (Some (PyExc "RequestError" "NOT_FOUND"));
                   Rpc (instruments_bond_by "BBG000000001")
                     (Some (PyExc "RequestError" "NOT_FOUND"));
                   Rpc (instruments_etf_by "BBG000000001")
                     (Some (PyExc "RequestError" "NOT_FOUND"))]))
    by (vm_compute; reflexivity).
  assert (Hno : no_price (Some {| last_prices := [] |})) by (right; left; reflexivity).
  destruct (missing_price_is_zero nat (service broker) unlisted start _ _ _ 4%nat
              eq_refl H64 Hc eq_refl Hno)
    as (item & Hrun & _ & _ & Hp & Hv).
  exists item. eexists. split; [exact Hrun|].
  split; [|split; assumption].
  revert Hrun. vm_compute. intros [= <-]. reflexivity.
Defined.

Lemma get_portfolio_nothing_held_witness :
  get_portfolio nat (service idle) token false start =
  (Ok (JDict [("success", JBool true);
              ("account_id", JStr "2000123");
              ("portfolio", JList []);
              ("total_value", JFloat zero);
              ("total_cost", JFloat zero);
              ("total_pnl", JFloat zero);
              ("total_pnl_percent", JFloat zero)]),
   logged start 3%nat [Connect token INVEST_GRPC_API None;
                       Rpc users_get_accounts None;
                       Rpc (operations_get_positions "2000123") None;
                       Close]).
Proof.
  apply (get_portfolio_nothing_held nat (service idle) token false start
           1%nat 2%nat 3%nat main_account []
           [{| figi := "BBG00000SOLD"; balance := 0 |};
            {| figi := "BBG0000SHORT"; balance := -2 |}]);
    try reflexivity.
  repeat constructor; intros H; discriminate H.
Defined.

Lemma main_forwards_query_and_figi_witness :
  (exists resp w exc,
      main nat (service idle) loads ["tinkoff_service.py"; "search_instruments"]
        (Ok flagged_text) start =
      (Ok resp,
       logged start w
         [Connect (JStr "t.0123456789") INVEST_GRPC_API_SANDBOX None;
          Rpc (instruments_find_instrument (JInt 7)) exc; Close]))
  /\ (exists resp w exc,
        main nat (service idle) loads ["tinkoff_service.py"; "get_current_price"]
          (Ok flagged_text) start =
        (Ok resp,
         logged start w
           [Connect (JStr "t.0123456789") INVEST_GRPC_API_SANDBOX None;
            Rpc (market_data_get_last_prices [JStr ""]) exc; Close])).
Proof.
  assert (Hne : flagged_text <> "") by (intros H; discriminate H).
  destruct (main_forwards_query_and_figi nat (service idle) loads "tinkoff_service.py" []
              flagged_text flagged start Hne eq_refl) as [Hq Hf].
  split.
  - exact (Hq 1%nat eq_refl).
  - exact (Hf 1%nat eq_refl).
Defined.

End FurtherRuns.
